(** * LoginProvisionedDevice: the provisioned-device login engine

    A shallow embedding of [go/engine/login_provisioned_device.go].

    The engine talks to many collaborators that live in other packages
    (configuration store, identity loader, session service, notification
    router).  Each collaborator call is modelled as a transformer of an
    abstract global state [G] (what [m.G()] points to), and every call
    is recorded in a trace of events, so that statements such as "the
    loader is never invoked" or "the notification is emitted once" are
    statements about the trace of a run. *)

From Stdlib Require Import String Ascii List ZArith Bool Arith Lia.
Import ListNotations.
Local Open Scope string_scope.
Local Open Scope list_scope.

(** ** Protocol types (package keybase1) *)

Module keybase1.

Definition UID := string.
Definition DeviceID := string.

(** [func (d DeviceID) IsNil() bool { return len(d) == 0 }] *)
Definition DeviceID_IsNil (d : DeviceID) : bool :=
  Nat.eqb (String.length d) 0.

Definition DeviceID_Eq (a b : DeviceID) : bool := String.eqb a b.

Definition StatusCode := Z.

(** The numeric value is declared in the protocol package; the engine
    only compares a status with it. *)
Definition StatusCode_SCDeleted : StatusCode := 216%Z.
Definition StatusCode_SCOk : StatusCode := 0%Z.

(** The engine only tests a revocation for nil, its contents are never
    inspected. *)
Record SignatureMetadata := { SigTime : Z }.

Record PublicKeyV2Base := {
  Kid : string;
  Revocation : option SignatureMetadata
}.

Record PublicKeyV2NaCl := {
  Base : PublicKeyV2Base;
  DeviceID_of : DeviceID
}.

Record UserPlusKeysV2 := {
  Uid : UID;
  Username : string;
  Status : StatusCode;
  DeviceKeys : list PublicKeyV2NaCl
}.

Record UserPlusKeysV2AllIncarnations := {
  Current : UserPlusKeysV2
}.

(** Modelled from the spec: [FindSigningDeviceKey] is declared in the
    protocol package, outside this file.  The spec describes it as a
    search of "the authoritative record's device list for an entry whose
    identifier matches the locally stored device identifier"; the list
    holds the signing device entries, and the search answers nil when
    no entry matches. *)
Definition FindSigningDeviceKey (u : UserPlusKeysV2) (d : DeviceID)
  : option PublicKeyV2NaCl :=
  find (fun k => DeviceID_Eq (DeviceID_of k) d) (DeviceKeys u).

End keybase1.

(** ** Library types (package libkb) *)

Module libkb.

Definition lower_ascii (c : ascii) : ascii :=
  let n := nat_of_ascii c in
  if ((65 <=? n) && (n <=? 90))%nat then ascii_of_nat (n + 32) else c.

Fixpoint ToLower (s : string) : string :=
  match s with
  | EmptyString => EmptyString
  | String c r => String (lower_ascii c) (ToLower r)
  end.

Definition NormalizedUsername := string.

(** [NewNormalizedUsername(s)] is [NormalizedUsername(strings.ToLower(s))];
    user names are ASCII, and [ToLower] above folds the ASCII letters. *)
Definition NewNormalizedUsername (s : string) : NormalizedUsername :=
  ToLower s.

Definition NormalizedUsername_Eq (a b : NormalizedUsername) : bool :=
  String.eqb a b.

Definition NormalizedUsername_String (n : NormalizedUsername) : string := n.

Inductive UIKind := LoginUIKind | SecretUIKind.

(** UI handles are opaque to the engine: it only passes them on. *)
Record UIs := { LoginUI : nat; SecretUI : nat }.

(** The local configuration entry of one user; [Device] is the stored
    device identifier, possibly absent. *)
Record UserConfig := {
  Name : NormalizedUsername;
  Device : option keybase1.DeviceID
}.

(** An absent identifier reads as the nil (empty) device id. *)
Definition GetDeviceID (c : UserConfig) : keybase1.DeviceID :=
  match Device c with
  | Some d => d
  | None => ""
  end.

(** The argument of the identity loader, built by chained setters. *)
Record LoadUserArg := {
  PublicKeyOptional : bool;
  ForcePoll : bool;
  Self : bool;
  ArgName : string
}.

Definition NewLoadUserArgWithMetaContext : LoadUserArg :=
  {| PublicKeyOptional := false; ForcePoll := false;
     Self := false; ArgName := "" |}.

Definition WithPublicKeyOptional (a : LoadUserArg) : LoadUserArg :=
  {| PublicKeyOptional := true; ForcePoll := ForcePoll a;
     Self := Self a; ArgName := ArgName a |}.

Definition WithForcePoll (fp : bool) (a : LoadUserArg) : LoadUserArg :=
  {| PublicKeyOptional := PublicKeyOptional a; ForcePoll := fp;
     Self := Self a; ArgName := ArgName a |}.

Definition WithSelf (self : bool) (a : LoadUserArg) : LoadUserArg :=
  {| PublicKeyOptional := PublicKeyOptional a; ForcePoll := ForcePoll a;
     Self := self; ArgName := ArgName a |}.

Definition WithName (n : string) (a : LoadUserArg) : LoadUserArg :=
  {| PublicKeyOptional := PublicKeyOptional a; ForcePoll := ForcePoll a;
     Self := Self a; ArgName := n |}.

End libkb.

Import keybase1 libkb.

(** ** Errors

    [errNoConfig] and [errNoDevice] are the package-level sentinels of the
    engine package, [UserDeletedError] is [libkb.UserDeletedError{}]; any
    other error comes from a collaborator and is carried as is. *)
Inductive error :=
| errNoConfig
| errNoDevice
| UserDeletedError
| ExternalError (msg : string).

(** What [LoadV2] hands back: a record when the error is nil. *)
Inductive LoadResult :=
| LoadOk (upak : UserPlusKeysV2AllIncarnations)
| LoadErr (err : error).

(** ** Events: one per collaborator call, in program order *)

Inductive fmt_arg :=
| ArgString (s : string)
| ArgError (e : error).

Inductive event :=
| EvTraceEnter (name : string)
| EvTraceExit (name : string) (err : option error)
| EvDebugf (fmt : string) (args : list fmt_arg)
| EvWarningf (fmt : string) (args : list fmt_arg)
| EvIsLoggedIn
| EvGetUsernameForUID (uid : UID)
| EvGetUsername
| EvGetDeviceID
| EvGetUserConfig
| EvGetUserConfigForUsername (nu : NormalizedUsername)
| EvLoadV2 (arg : LoadUserArg)
| EvSwitchUserNukeConfig (nu : NormalizedUsername)
| EvLoginWithStoredSecret (username : string)
| EvLoginWithPrompt (username : string) (loginUI secretUI : nat)
| EvSetDeviceProvisioned (d : DeviceID)
| EvHandleLogin (username : string)
| EvCallLoginHooks.

Definition is_load (ev : event) : bool :=
  match ev with EvLoadV2 _ => true | _ => false end.

Definition is_nuke (ev : event) : bool :=
  match ev with EvSwitchUserNukeConfig _ => true | _ => false end.

Definition is_stored_secret_login (ev : event) : bool :=
  match ev with EvLoginWithStoredSecret _ => true | _ => false end.

Definition is_prompt_login (ev : event) : bool :=
  match ev with EvLoginWithPrompt _ _ _ => true | _ => false end.

Definition is_login (ev : event) : bool :=
  is_stored_secret_login ev || is_prompt_login ev.

Definition is_set_provisioned (ev : event) : bool :=
  match ev with EvSetDeviceProvisioned _ => true | _ => false end.

Definition is_notify (ev : event) : bool :=
  match ev with EvHandleLogin _ => true | _ => false end.

Definition is_hooks (ev : event) : bool :=
  match ev with EvCallLoginHooks => true | _ => false end.

Definition is_warning (ev : event) : bool :=
  match ev with EvWarningf _ _ => true | _ => false end.

(** Number of events of a kind in a trace. *)
Definition count (p : event -> bool) (tr : list event) : nat :=
  List.length (filter p tr).

(** ** The effect monad

    A computation reads and updates the global state and writes the events
    it caused.  [bind] concatenates the events in program order. *)

Definition M (G A : Type) : Type := G -> A * G * list event.

Definition ret {G A} (a : A) : M G A := fun g => (a, g, []).

Definition bind {G A B} (c : M G A) (k : A -> M G B) : M G B :=
  fun g =>
    let '(a, g1, t1) := c g in
    let '(b, g2, t2) := k a g1 in
    (b, g2, t1 ++ t2).

(** A collaborator call: log the event, run the collaborator. *)
Definition call {G A} (ev : event) (f : G -> A * G) : M G A :=
  fun g => let '(a, g1) := f g in (a, g1, [ev]).

(** A call that returns nothing. *)
Definition call_ {G} (ev : event) (f : G -> G) : M G unit :=
  fun g => (tt, f g, [ev]).

Definition emit {G} (ev : event) : M G unit := fun g => (tt, g, [ev]).

Declare Scope engine_scope.
Delimit Scope engine_scope with engine.
Notation "x <- c ;; k" := (bind c (fun x => k))
  (at level 61, c at next level, right associativity) : engine_scope.
Notation "' p <- c ;; k" := (bind c (fun p => k))
  (at level 61, p pattern, c at next level, right associativity) : engine_scope.
Notation "c ;; k" := (bind c (fun _ => k))
  (at level 61, right associativity) : engine_scope.
Local Open Scope engine_scope.

Definition value {G A} (r : A * G * list event) : A := fst (fst r).
Definition final {G A} (r : A * G * list event) : G := snd (fst r).
Definition trace {G A} (r : A * G * list event) : list event := snd r.

(** ** The meta context

    [MetaContext G] collects the behaviour of every collaborator the
    engine reaches through [m] and [m.G()]. *)

Record MetaContext (G : Type) := {
  m_UIs : UIs;
  (** [isLoggedIn(m)], a helper of the engine package *)
  m_isLoggedIn : G -> (bool * UID) * G;
  (** [m.G().Env] *)
  Env_GetUsernameForUID : UID -> G -> NormalizedUsername * G;
  Env_GetUsername : G -> NormalizedUsername * G;
  Env_GetDeviceID : G -> DeviceID * G;
  (** [m.G().Env.GetConfig()]: a possibly nil entry and a possibly nil
      error, independently of each other *)
  Config_GetUserConfig : G -> (option UserConfig * option error) * G;
  Config_GetUserConfigForUsername :
    NormalizedUsername -> G -> (option UserConfig * option error) * G;
  (** [m.G().GetUPAKLoader().LoadV2] *)
  UPAKLoader_LoadV2 : LoadUserArg -> G -> LoadResult * G;
  (** [m.SwitchUserNukeConfig] *)
  m_SwitchUserNukeConfig : NormalizedUsername -> G -> option error * G;
  (** the credential exchange behind [LoginWithStoredSecret] and
      [LoginWithPrompt] *)
  LoginState_storedSecretExchange : string -> G -> option error * G;
  LoginState_promptExchange : string -> nat -> nat -> G -> option error * G;
  (** [lctx.LocalSession().SetDeviceProvisioned] *)
  LocalSession_SetDeviceProvisioned : DeviceID -> G -> option error * G;
  (** [m.G().NotifyRouter.HandleLogin] and [m.G().CallLoginHooks]: neither
      returns anything *)
  NotifyRouter_HandleLogin : string -> G -> G;
  G_CallLoginHooks : G -> G
}.

Arguments m_UIs {G}.
Arguments m_isLoggedIn {G}.
Arguments Env_GetUsernameForUID {G}.
Arguments Env_GetUsername {G}.
Arguments Env_GetDeviceID {G}.
Arguments Config_GetUserConfig {G}.
Arguments Config_GetUserConfigForUsername {G}.
Arguments UPAKLoader_LoadV2 {G}.
Arguments m_SwitchUserNukeConfig {G}.
Arguments LoginState_storedSecretExchange {G}.
Arguments LoginState_promptExchange {G}.
Arguments LocalSession_SetDeviceProvisioned {G}.
Arguments NotifyRouter_HandleLogin {G}.
Arguments G_CallLoginHooks {G}.

Section Collaborators.

Context {G : Type}.
Variable m : MetaContext G.

Definition CDebugf (fmt : string) (args : list fmt_arg) : M G unit :=
  emit (EvDebugf fmt args).

Definition CWarningf (fmt : string) (args : list fmt_arg) : M G unit :=
  emit (EvWarningf fmt args).

(** [defer m.CTrace(name, func() error { return err })()]: one line on
    entry, one on exit with the error the function returns. *)
Definition CTrace {A} (name : string) (err_of : A -> option error)
  (body : M G A) : M G A :=
  emit (EvTraceEnter name) ;;
  r <- body ;;
  emit (EvTraceExit name (err_of r)) ;;
  ret r.

Definition isLoggedIn : M G (bool * UID) :=
  call EvIsLoggedIn (m_isLoggedIn m).

Definition GetUsernameForUID (uid : UID) : M G NormalizedUsername :=
  call (EvGetUsernameForUID uid) (Env_GetUsernameForUID m uid).

Definition GetUsername : M G NormalizedUsername :=
  call EvGetUsername (Env_GetUsername m).

Definition Env_DeviceID : M G DeviceID :=
  call EvGetDeviceID (Env_GetDeviceID m).

Definition GetUserConfig : M G (option UserConfig * option error) :=
  call EvGetUserConfig (Config_GetUserConfig m).

Definition GetUserConfigForUsername (nu : NormalizedUsername)
  : M G (option UserConfig * option error) :=
  call (EvGetUserConfigForUsername nu) (Config_GetUserConfigForUsername m nu).

Definition LoadV2 (arg : LoadUserArg) : M G LoadResult :=
  call (EvLoadV2 arg) (UPAKLoader_LoadV2 m arg).

Definition SwitchUserNukeConfig (nu : NormalizedUsername)
  : M G (option error) :=
  call (EvSwitchUserNukeConfig nu) (m_SwitchUserNukeConfig m nu).

Definition SetDeviceProvisioned (d : DeviceID) : M G (option error) :=
  call (EvSetDeviceProvisioned d) (LocalSession_SetDeviceProvisioned m d).

Definition HandleLogin (username : string) : M G unit :=
  call_ (EvHandleLogin username) (NotifyRouter_HandleLogin m username).

Definition CallLoginHooks : M G unit :=
  call_ EvCallLoginHooks (G_CallLoginHooks m).

(** Modelled from the spec: the session/login service is outside this
    file.  The spec gives its interface as
    [loginWithStoredSecret(username, postLoginCallback) -> error] and
    [loginWithPrompt(username, loginUI, secretUI, postLoginCallback) ->
    error], where "both invoke the callback synchronously on success
    before returning": a failed credential exchange returns its error and
    leaves the callback alone, a successful one runs the callback once and
    returns what the callback returns. *)
Definition LoginWithStoredSecret (username : string)
  (after : M G (option error)) : M G (option error) :=
  r <- call (EvLoginWithStoredSecret username)
            (LoginState_storedSecretExchange m username) ;;
  match r with
  | Some err => ret (Some err)
  | None => after
  end.

Definition LoginWithPrompt (username : string) (loginUI secretUI : nat)
  (after : M G (option error)) : M G (option error) :=
  r <- call (EvLoginWithPrompt username loginUI secretUI)
            (LoginState_promptExchange m username loginUI secretUI) ;;
  match r with
  | Some err => ret (Some err)
  | None => after
  end.

End Collaborators.

(** ** The engine *)

Record LoginProvisionedDevice := {
  username : NormalizedUsername;
  SecretStoreOnly : bool
}.

Definition set_username (e : LoginProvisionedDevice) (nu : NormalizedUsername)
  : LoginProvisionedDevice :=
  {| username := nu; SecretStoreOnly := SecretStoreOnly e |}.

Definition NewLoginProvisionedDevice (name : string) : LoginProvisionedDevice :=
  {| username := NewNormalizedUsername name; SecretStoreOnly := false |}.

Definition EngineName (e : LoginProvisionedDevice) : string :=
  "LoginProvisionedDevice".

Definition RequiredUIs (e : LoginProvisionedDevice) : list UIKind :=
  if SecretStoreOnly e then [] else [LoginUIKind; SecretUIKind].

Definition SubConsumers (e : LoginProvisionedDevice) : list UIKind := [].

Section Engine.

Context {G : Type}.
Variable m : MetaContext G.

(** The result of a method on the engine: the engine after the call (the
    receiver is a pointer) and the error returned. *)
Definition outcome : Type := LoginProvisionedDevice * option error.

Definition loadMe (e : LoginProvisionedDevice) : M G outcome :=
  CTrace "LoginProvisionedDevice#loadMe" snd (
    let loadUserArg :=
      WithForcePoll true
        (WithPublicKeyOptional NewLoadUserArgWithMetaContext) in
    '(config, err, loadUserArg) <-
      (if Nat.eqb (String.length (username e)) 0 then
         CDebugf "| using current username" [] ;;
         '(config, err) <- GetUserConfig m ;;
         ret (config, err, WithSelf true loadUserArg)
       else
         CDebugf "| using new username %s" [ArgString (username e)] ;;
         let nu := username e in
         '(config, err) <- GetUserConfigForUsername m nu ;;
         ret (config, err,
              WithName (NormalizedUsername_String (username e)) loadUserArg)) ;;
    match err with
    | Some err0 =>
        CDebugf "error getting user config: %s (%T)"
                [ArgError err0; ArgError err0] ;;
        ret (e, Some errNoConfig)
    | None =>
    match config with
    | None =>
        CDebugf "user config is nil" [] ;;
        ret (e, Some errNoConfig)
    | Some config =>
    let deviceID := GetDeviceID config in
    if DeviceID_IsNil deviceID then
      CDebugf "no device in user config" [] ;;
      ret (e, Some errNoDevice)
    else
    (* Make sure the device ID is still valid. *)
    r <- LoadV2 m loadUserArg ;;
    match r with
    | LoadErr err1 =>
        CDebugf "error loading user profile: %#v" [ArgError err1] ;;
        ret (e, Some err1)
    | LoadOk upak =>
    if Z.eqb (Status (Current upak)) StatusCode_SCDeleted then
      CDebugf "User %s was deleted" [ArgString (Uid (Current upak))] ;;
      ret (e, Some UserDeletedError)
    else
    let nu := NewNormalizedUsername (Username (Current upak)) in
    let device := FindSigningDeviceKey (Current upak) deviceID in
    let nukeDevice := false in
    nukeDevice <-
      match device with
      | None =>
          CDebugf "Current device %s not found" [ArgString deviceID] ;;
          ret true
      | Some dev =>
          match Revocation (Base dev) with
          | Some _ =>
              CDebugf "Current device %s has been revoked"
                      [ArgString deviceID] ;;
              ret true
          | None => ret nukeDevice
          end
      end ;;
    if (nukeDevice : bool) then
      (* the config file shows a bogus deviceID: delete it *)
      tmp <- SwitchUserNukeConfig m nu ;;
      match tmp with
      | Some terr => CWarningf "Error clearing user config: %s" [ArgError terr]
      | None => ret tt
      end ;;
      ret (e, Some errNoDevice)
    else
      ret (set_username e nu, None)
    end end end).

(** The callback handed to the session service. *)
Definition afterLogin : M G (option error) :=
  d <- Env_DeviceID m ;;
  r <- SetDeviceProvisioned m d ;;
  match r with
  | Some err =>
      (* not a fatal error, session will stay in memory *)
      CWarningf "error saving session file: %s" [ArgError err]
  | None => ret tt
  end ;;
  ret None.

Definition run (e : LoginProvisionedDevice) : M G outcome :=
  CTrace "LoginProvisionedDevice#run" snd (
    (* already logged in? *)
    '(in_, uid) <- isLoggedIn m ;;
    short <-
      (if (in_ : bool) then
         if Nat.eqb (String.length (username e)) 0 then ret true
         else
           u <- GetUsernameForUID m uid ;;
           ret (NormalizedUsername_Eq u (username e))
       else ret false) ;;
    if (short : bool) then
      CDebugf "user %s already logged in; short-circuting" [ArgString uid] ;;
      ret (e, None)
    else
    '(e, err) <- loadMe e ;;
    match err with
    | Some _ => ret (e, None)
    | None =>
    r <-
      (if SecretStoreOnly e then
         LoginWithStoredSecret m (NormalizedUsername_String (username e))
                               afterLogin
       else
         LoginWithPrompt m (NormalizedUsername_String (username e))
                         (LoginUI (m_UIs m)) (SecretUI (m_UIs m))
                         afterLogin) ;;
    match r with
    | Some err1 => ret (e, Some err1)
    | None =>
        (* login was successful, unlock the device keys (disabled) *)
        match err with
        | Some err2 => ret (e, Some err2)
        | None => ret (e, None)
        end
    end
    end).

Definition Run (e : LoginProvisionedDevice) : M G outcome :=
  '(e, err) <- run e ;;
  match err with
  | Some err0 => ret (e, Some err0)
  | None =>
      CDebugf "LoginProvisionedDevice success, sending login notification" [] ;;
      u <- GetUsername m ;;
      HandleLogin m u ;;
      CDebugf "LoginProvisionedDevice success, calling login hooks" [] ;;
      CallLoginHooks m ;;
      ret (e, None)
  end.

End Engine.

(** ** What a validation reads

    The two reads of [loadMe], named so that statements can speak of "the
    configuration entry found" and "the authoritative record fetched". *)

Section Reads.

Context {G : Type}.
Variable m : MetaContext G.

(** The configuration read [loadMe] performs for engine [e]. *)
Definition config_read (e : LoginProvisionedDevice) (g : G)
  : (option UserConfig * option error) * G :=
  if Nat.eqb (String.length (username e)) 0
  then Config_GetUserConfig m g
  else Config_GetUserConfigForUsername m (username e) g.

(** The loader argument [loadMe] builds for engine [e]. *)
Definition load_arg (e : LoginProvisionedDevice) : LoadUserArg :=
  let base :=
    WithForcePoll true (WithPublicKeyOptional NewLoadUserArgWithMetaContext) in
  if Nat.eqb (String.length (username e)) 0
  then WithSelf true base
  else WithName (NormalizedUsername_String (username e)) base.

(** A validation of [e] from state [g] reaches the loader with device
    [d]: an entry is found, read without error, with non-nil device [d];
    [g1] is the state the loader is called in. *)
Definition reaches_fetch (e : LoginProvisionedDevice) (g : G)
  (d : DeviceID) (g1 : G) : Prop :=
  exists c, config_read e g = ((Some c, None), g1)
            /\ GetDeviceID c = d
            /\ DeviceID_IsNil d = false.

(** The validation fetches record [upak], leaving state [g2]. *)
Definition fetches (e : LoginProvisionedDevice) (g : G)
  (d : DeviceID) (upak : UserPlusKeysV2AllIncarnations) (g2 : G) : Prop :=
  exists g1, reaches_fetch e g d g1
             /\ UPAKLoader_LoadV2 m (load_arg e) g1 = (LoadOk upak, g2).

End Reads.

(** ** An in-memory fake of the collaborators

    A small executable world, used to run the engine on concrete inputs:
    a session, per-user configuration entries, the authority's records,
    and switches that make individual collaborators fail. *)

Module Fake.

Record World := {
  session : option (UID * NormalizedUsername);
  current : NormalizedUsername;
  configs : list UserConfig;
  remote : list UserPlusKeysV2;
  load_error : option error;
  nuke_error : option error;
  exchange_error : option error;
  marker_error : option error;
  marker : option DeviceID;
  notified : list string;
  hooks_called : nat
}.

Definition find_config (nu : NormalizedUsername) (w : World)
  : option UserConfig :=
  find (fun c => String.eqb (Name c) nu) (configs w).

Definition find_remote (name : string) (w : World) : option UserPlusKeysV2 :=
  find (fun u => String.eqb (NewNormalizedUsername (Username u))
                            (NewNormalizedUsername name)) (remote w).

Definition with_configs (cs : list UserConfig) (w : World) : World :=
  {| session := session w; current := current w; configs := cs;
     remote := remote w; load_error := load_error w;
     nuke_error := nuke_error w; exchange_error := exchange_error w;
     marker_error := marker_error w; marker := marker w;
     notified := notified w; hooks_called := hooks_called w |}.

Definition with_session (uid : UID) (nu : NormalizedUsername) (w : World)
  : World :=
  {| session := Some (uid, nu); current := nu; configs := configs w;
     remote := remote w; load_error := load_error w;
     nuke_error := nuke_error w; exchange_error := exchange_error w;
     marker_error := marker_error w; marker := marker w;
     notified := notified w; hooks_called := hooks_called w |}.

Definition with_marker (d : DeviceID) (w : World) : World :=
  {| session := session w; current := current w; configs := configs w;
     remote := remote w; load_error := load_error w;
     nuke_error := nuke_error w; exchange_error := exchange_error w;
     marker_error := marker_error w; marker := Some d;
     notified := notified w; hooks_called := hooks_called w |}.

Definition with_notified (u : string) (w : World) : World :=
  {| session := session w; current := current w; configs := configs w;
     remote := remote w; load_error := load_error w;
     nuke_error := nuke_error w; exchange_error := exchange_error w;
     marker_error := marker_error w; marker := marker w;
     notified := notified w ++ [u]; hooks_called := hooks_called w |}.

Definition with_hooks (w : World) : World :=
  {| session := session w; current := current w; configs := configs w;
     remote := remote w; load_error := load_error w;
     nuke_error := nuke_error w; exchange_error := exchange_error w;
     marker_error := marker_error w; marker := marker w;
     notified := notified w; hooks_called := S (hooks_called w) |}.

Definition exchange (name : string) (w : World) : option error * World :=
  match exchange_error w with
  | Some err => (Some err, w)
  | None =>
      match find_remote name w with
      | Some u => (None, with_session (Uid u) (NewNormalizedUsername name) w)
      | None => (Some (ExternalError "unknown user"), w)
      end
  end.

Definition ctx : MetaContext World := {|
  m_UIs := {| LoginUI := 1; SecretUI := 2 |};
  m_isLoggedIn := fun w =>
    (match session w with
     | Some (uid, _) => (true, uid)
     | None => (false, "")
     end, w);
  Env_GetUsernameForUID := fun uid w =>
    (match session w with
     | Some (u, nu) => if String.eqb u uid then nu else ""
     | None => ""
     end, w);
  Env_GetUsername := fun w => (current w, w);
  Env_GetDeviceID := fun w =>
    (match find_config (current w) w with
     | Some c => GetDeviceID c
     | None => ""
     end, w);
  Config_GetUserConfig := fun w => ((find_config (current w) w, None), w);
  Config_GetUserConfigForUsername := fun nu w =>
    ((find_config nu w, None), w);
  UPAKLoader_LoadV2 := fun arg w =>
    (match load_error w with
     | Some err => LoadErr err
     | None =>
         match find_remote (if Self arg then current w else ArgName arg) w with
         | Some u => LoadOk {| Current := u |}
         | None => LoadErr (ExternalError "user not found")
         end
     end, w);
  m_SwitchUserNukeConfig := fun nu w =>
    match nuke_error w with
    | Some err => (Some err, w)
    | None =>
        (None,
         with_configs
           (filter (fun c => negb (String.eqb (Name c) nu)) (configs w)) w)
    end;
  LoginState_storedSecretExchange := exchange;
  LoginState_promptExchange := fun name _ _ => exchange name;
  LocalSession_SetDeviceProvisioned := fun d w =>
    match marker_error w with
    | Some err => (Some err, w)
    | None => (None, with_marker d w)
    end;
  NotifyRouter_HandleLogin := with_notified;
  G_CallLoginHooks := with_hooks
|}.

(** Sample data. *)

Definition key (d : DeviceID) (rev : option SignatureMetadata)
  : PublicKeyV2NaCl :=
  {| Base := {| Kid := "kid-" ++ d; Revocation := rev |}; DeviceID_of := d |}.

Definition user (uid : UID) (name : string) (st : StatusCode)
  (keys : list PublicKeyV2NaCl) : UserPlusKeysV2 :=
  {| Uid := uid; Username := name; Status := st; DeviceKeys := keys |}.

Definition world (sess : option (UID * NormalizedUsername))
  (cur : NormalizedUsername) (cs : list UserConfig)
  (rs : list UserPlusKeysV2) : World :=
  {| session := sess; current := cur; configs := cs; remote := rs;
     load_error := None; nuke_error := None; exchange_error := None;
     marker_error := None; marker := None; notified := [];
     hooks_called := 0 |}.

Definition failing_nuke (w : World) : World :=
  {| session := session w; current := current w; configs := configs w;
     remote := remote w; load_error := load_error w;
     nuke_error := Some (ExternalError "config is read-only");
     exchange_error := exchange_error w;
     marker_error := marker_error w; marker := marker w;
     notified := notified w; hooks_called := hooks_called w |}.

Definition failing_marker (w : World) : World :=
  {| session := session w; current := current w; configs := configs w;
     remote := remote w; load_error := load_error w;
     nuke_error := nuke_error w; exchange_error := exchange_error w;
     marker_error := Some (ExternalError "session file not writable");
     marker := marker w;
     notified := notified w; hooks_called := hooks_called w |}.

Definition failing_exchange (w : World) : World :=
  {| session := session w; current := current w; configs := configs w;
     remote := remote w; load_error := load_error w;
     nuke_error := nuke_error w;
     exchange_error := Some (ExternalError "bad passphrase");
     marker_error := marker_error w; marker := marker w;
     notified := notified w; hooks_called := hooks_called w |}.

Definition failing_load (w : World) : World :=
  {| session := session w; current := current w; configs := configs w;
     remote := remote w;
     load_error := Some (ExternalError "network unreachable");
     nuke_error := nuke_error w; exchange_error := exchange_error w;
     marker_error := marker_error w; marker := marker w;
     notified := notified w; hooks_called := hooks_called w |}.

Definition alice_cfg : UserConfig := {| Name := "alice"; Device := Some "D2" |}.
Definition bob_cfg : UserConfig := {| Name := "bob"; Device := Some "D1" |}.
Definition carol_cfg : UserConfig := {| Name := "carol"; Device := None |}.

Definition alice_remote : UserPlusKeysV2 :=
  user "uid-alice" "Alice" StatusCode_SCOk [key "D7" None].
Definition bob_remote : UserPlusKeysV2 :=
  user "uid-bob" "bob" StatusCode_SCOk [key "D1" None].
Definition dave_remote : UserPlusKeysV2 :=
  user "uid-dave" "dave" StatusCode_SCDeleted [].
Definition erin_remote : UserPlusKeysV2 :=
  user "uid-erin" "erin" StatusCode_SCOk [key "D5" (Some {| SigTime := 7 |})].

Definition frank_remote : UserPlusKeysV2 :=
  user "uid-frank" "frank" StatusCode_SCDeleted [key "D6" None].

Definition dave_cfg : UserConfig := {| Name := "dave"; Device := Some "D4" |}.
Definition frank_cfg : UserConfig := {| Name := "frank"; Device := Some "D6" |}.
Definition erin_cfg : UserConfig := {| Name := "erin"; Device := Some "D5" |}.

(** Nobody is logged in; bob is the configured user. *)
Definition w0 : World :=
  world None "bob"
        [alice_cfg; bob_cfg; carol_cfg; dave_cfg; erin_cfg; frank_cfg]
        [alice_remote; bob_remote; dave_remote; erin_remote; frank_remote].

(** Bob is logged in. *)
Definition w_bob : World :=
  world (Some ("uid-bob", "bob")) "bob" [bob_cfg] [bob_remote].

(** Nobody is logged in and there is no configuration at all. *)
Definition w_empty : World := world None "" [] [bob_remote].

End Fake.

(** ** Stale devices *)

(** No entry of the record's device list carries identifier [d]. *)
Definition device_absent (u : UserPlusKeysV2) (d : DeviceID) : Prop :=
  forall k, In k (DeviceKeys u) -> DeviceID_of k <> d.

(** The entry found for [d] carries a revocation marker. *)
Definition device_revoked (u : UserPlusKeysV2) (d : DeviceID) : Prop :=
  exists k, FindSigningDeviceKey u d = Some k /\ Revocation (Base k) <> None.

(** The test [loadMe] makes at lines 109-118, as a boolean. *)
Definition stale (u : UserPlusKeysV2) (d : DeviceID) : bool :=
  match FindSigningDeviceKey u d with
  | None => true
  | Some dev =>
      match Revocation (Base dev) with
      | Some _ => true
      | None => false
      end
  end.

(** ** Traces of the validator, path by path *)

Definition loadMe_name : string := "LoginProvisionedDevice#loadMe".

Definition config_events (e : LoginProvisionedDevice) : list event :=
  if Nat.eqb (String.length (username e)) 0
  then [EvDebugf "| using current username" []; EvGetUserConfig]
  else [EvDebugf "| using new username %s" [ArgString (username e)];
        EvGetUserConfigForUsername (username e)].

Definition stale_event (u : UserPlusKeysV2) (d : DeviceID) : event :=
  match FindSigningDeviceKey u d with
  | None => EvDebugf "Current device %s not found" [ArgString d]
  | Some _ => EvDebugf "Current device %s has been revoked" [ArgString d]
  end.

Definition nuke_warning (tmp : option error) : list event :=
  match tmp with
  | Some terr => [EvWarningf "Error clearing user config: %s" [ArgError terr]]
  | None => []
  end.

Ltac unfold_engine :=
  unfold Run, run, loadMe, afterLogin, CTrace, LoginWithStoredSecret,
    LoginWithPrompt, isLoggedIn, GetUsernameForUID, GetUsername, Env_DeviceID,
    GetUserConfig, GetUserConfigForUsername, LoadV2, SwitchUserNukeConfig,
    SetDeviceProvisioned, HandleLogin, CallLoginHooks, CDebugf, CWarningf,
    bind, call, call_, emit, ret.

Ltac use_eq :=
  repeat match goal with
         | H : ?f = _ |- context [?f] => rewrite H; simpl
         end.

Section ValidatorPaths.

Context {G : Type}.
Variable m : MetaContext G.

Lemma loadMe_read_error e g oc err0 g1 :
  config_read m e g = ((oc, Some err0), g1) ->
  loadMe m e g =
    ((e, Some errNoConfig), g1,
     EvTraceEnter loadMe_name :: config_events e ++
     [EvDebugf "error getting user config: %s (%T)"
               [ArgError err0; ArgError err0];
      EvTraceExit loadMe_name (Some errNoConfig)]).
Proof.
  unfold config_read, config_events. intros H. unfold_engine.
  destruct (Nat.eqb (String.length (username e)) 0); simpl; use_eq;
    reflexivity.
Qed.

Lemma loadMe_no_entry e g g1 :
  config_read m e g = ((None, None), g1) ->
  loadMe m e g =
    ((e, Some errNoConfig), g1,
     EvTraceEnter loadMe_name :: config_events e ++
     [EvDebugf "user config is nil" [];
      EvTraceExit loadMe_name (Some errNoConfig)]).
Proof.
  unfold config_read, config_events. intros H. unfold_engine.
  destruct (Nat.eqb (String.length (username e)) 0); simpl; use_eq;
    reflexivity.
Qed.

Lemma loadMe_nil_device e g c g1 :
  config_read m e g = ((Some c, None), g1) ->
  DeviceID_IsNil (GetDeviceID c) = true ->
  loadMe m e g =
    ((e, Some errNoDevice), g1,
     EvTraceEnter loadMe_name :: config_events e ++
     [EvDebugf "no device in user config" [];
      EvTraceExit loadMe_name (Some errNoDevice)]).
Proof.
  unfold config_read, config_events. intros H Hd. unfold_engine.
  destruct (Nat.eqb (String.length (username e)) 0); simpl; use_eq;
    reflexivity.
Qed.

Lemma loadMe_fetch_error e g d g1 err g2 :
  reaches_fetch m e g d g1 ->
  UPAKLoader_LoadV2 m (load_arg e) g1 = (LoadErr err, g2) ->
  loadMe m e g =
    ((e, Some err), g2,
     EvTraceEnter loadMe_name :: config_events e ++
     [EvLoadV2 (load_arg e);
      EvDebugf "error loading user profile: %#v" [ArgError err];
      EvTraceExit loadMe_name (Some err)]).
Proof.
  intros (c & H & <- & Hd). revert H.
  unfold config_read, config_events, load_arg. intros H HL. unfold_engine.
  destruct (Nat.eqb (String.length (username e)) 0); simpl; use_eq;
    reflexivity.
Qed.

Lemma loadMe_deleted e g d upak g2 :
  fetches m e g d upak g2 ->
  Status (Current upak) = StatusCode_SCDeleted ->
  loadMe m e g =
    ((e, Some UserDeletedError), g2,
     EvTraceEnter loadMe_name :: config_events e ++
     [EvLoadV2 (load_arg e);
      EvDebugf "User %s was deleted" [ArgString (Uid (Current upak))];
      EvTraceExit loadMe_name (Some UserDeletedError)]).
Proof.
  intros (g1 & (c & H & <- & Hd) & HL) Hs. revert H HL.
  unfold config_read, config_events, load_arg. intros H HL. unfold_engine.
  destruct (Nat.eqb (String.length (username e)) 0); simpl; use_eq;
    reflexivity.
Qed.

Lemma loadMe_stale e g d upak g2 tmp g3 :
  fetches m e g d upak g2 ->
  Status (Current upak) <> StatusCode_SCDeleted ->
  stale (Current upak) d = true ->
  m_SwitchUserNukeConfig m (NewNormalizedUsername (Username (Current upak))) g2
    = (tmp, g3) ->
  loadMe m e g =
    ((e, Some errNoDevice), g3,
     EvTraceEnter loadMe_name :: config_events e ++
     [EvLoadV2 (load_arg e); stale_event (Current upak) d;
      EvSwitchUserNukeConfig (NewNormalizedUsername (Username (Current upak)))]
     ++ nuke_warning tmp ++ [EvTraceExit loadMe_name (Some errNoDevice)]).
Proof.
  intros (g1 & (c & H & <- & Hd) & HL) Hs Hst Hn. revert H HL.
  apply Z.eqb_neq in Hs.
  unfold config_read, config_events, load_arg, stale, stale_event in *.
  intros H HL. unfold_engine.
  destruct (Nat.eqb (String.length (username e)) 0); simpl; use_eq;
    (destruct (FindSigningDeviceKey (Current upak) (GetDeviceID c)) as [dev|];
     [destruct (Revocation (Base dev)); [|discriminate]|]);
    simpl; use_eq; destruct tmp; reflexivity.
Qed.

Lemma loadMe_valid e g d upak g2 :
  fetches m e g d upak g2 ->
  Status (Current upak) <> StatusCode_SCDeleted ->
  stale (Current upak) d = false ->
  loadMe m e g =
    ((set_username e (NewNormalizedUsername (Username (Current upak))), None),
     g2,
     EvTraceEnter loadMe_name :: config_events e ++
     [EvLoadV2 (load_arg e); EvTraceExit loadMe_name None]).
Proof.
  intros (g1 & (c & H & <- & Hd) & HL) Hs Hst. revert H HL.
  apply Z.eqb_neq in Hs.
  unfold config_read, config_events, load_arg, stale in *.
  intros H HL. unfold_engine.
  destruct (Nat.eqb (String.length (username e)) 0); simpl; use_eq;
    (destruct (FindSigningDeviceKey (Current upak) (GetDeviceID c)) as [dev|];
     [destruct (Revocation (Base dev)); [discriminate|]|discriminate]);
    simpl; reflexivity.
Qed.

End ValidatorPaths.

(** ** The validator as a relation

    [validation m e g r]: the run of [loadMe] on engine [e] from state [g]
    ends in [r] (engine and error, final state, events).  One constructor
    per return statement of [loadMe]. *)

Inductive validation {G : Type} (m : MetaContext G)
  (e : LoginProvisionedDevice) (g : G)
  : outcome * G * list event -> Prop :=
| V_read_error oc err0 g1 :
    config_read m e g = ((oc, Some err0), g1) ->
    validation m e g
      ((e, Some errNoConfig), g1,
       EvTraceEnter loadMe_name :: config_events e ++
       [EvDebugf "error getting user config: %s (%T)"
                 [ArgError err0; ArgError err0];
        EvTraceExit loadMe_name (Some errNoConfig)])
| V_no_entry g1 :
    config_read m e g = ((None, None), g1) ->
    validation m e g
      ((e, Some errNoConfig), g1,
       EvTraceEnter loadMe_name :: config_events e ++
       [EvDebugf "user config is nil" [];
        EvTraceExit loadMe_name (Some errNoConfig)])
| V_nil_device c g1 :
    config_read m e g = ((Some c, None), g1) ->
    DeviceID_IsNil (GetDeviceID c) = true ->
    validation m e g
      ((e, Some errNoDevice), g1,
       EvTraceEnter loadMe_name :: config_events e ++
       [EvDebugf "no device in user config" [];
        EvTraceExit loadMe_name (Some errNoDevice)])
| V_fetch_error d g1 err g2 :
    reaches_fetch m e g d g1 ->
    UPAKLoader_LoadV2 m (load_arg e) g1 = (LoadErr err, g2) ->
    validation m e g
      ((e, Some err), g2,
       EvTraceEnter loadMe_name :: config_events e ++
       [EvLoadV2 (load_arg e);
        EvDebugf "error loading user profile: %#v" [ArgError err];
        EvTraceExit loadMe_name (Some err)])
| V_deleted d upak g2 :
    fetches m e g d upak g2 ->
    Status (Current upak) = StatusCode_SCDeleted ->
    validation m e g
      ((e, Some UserDeletedError), g2,
       EvTraceEnter loadMe_name :: config_events e ++
       [EvLoadV2 (load_arg e);
        EvDebugf "User %s was deleted" [ArgString (Uid (Current upak))];
        EvTraceExit loadMe_name (Some UserDeletedError)])
| V_stale d upak g2 tmp g3 :
    fetches m e g d upak g2 ->
    Status (Current upak) <> StatusCode_SCDeleted ->
    stale (Current upak) d = true ->
    m_SwitchUserNukeConfig m (NewNormalizedUsername (Username (Current upak))) g2
      = (tmp, g3) ->
    validation m e g
      ((e, Some errNoDevice), g3,
       EvTraceEnter loadMe_name :: config_events e ++
       [EvLoadV2 (load_arg e); stale_event (Current upak) d;
        EvSwitchUserNukeConfig (NewNormalizedUsername (Username (Current upak)))]
       ++ nuke_warning tmp ++ [EvTraceExit loadMe_name (Some errNoDevice)])
| V_valid d upak g2 :
    fetches m e g d upak g2 ->
    Status (Current upak) <> StatusCode_SCDeleted ->
    stale (Current upak) d = false ->
    validation m e g
      ((set_username e (NewNormalizedUsername (Username (Current upak))), None),
       g2,
       EvTraceEnter loadMe_name :: config_events e ++
       [EvLoadV2 (load_arg e); EvTraceExit loadMe_name None]).

Section ValidatorTotal.

Context {G : Type}.
Variable m : MetaContext G.

(** [loadMe] always takes one of the seven paths. *)
Lemma loadMe_validation e g : validation m e g (loadMe m e g).
Proof.
  destruct (config_read m e g) as [[oc oerr] g1] eqn:Hc.
  destruct oerr as [err0|].
  { rewrite (loadMe_read_error m e g oc err0 g1 Hc). econstructor; eauto. }
  destruct oc as [c|].
  2:{ rewrite (loadMe_no_entry m e g g1 Hc). econstructor; eauto. }
  destruct (DeviceID_IsNil (GetDeviceID c)) eqn:Hd.
  { rewrite (loadMe_nil_device m e g c g1 Hc Hd). econstructor; eauto. }
  assert (Hr : reaches_fetch m e g (GetDeviceID c) g1)
    by (exists c; auto).
  destruct (UPAKLoader_LoadV2 m (load_arg e) g1) as [[upak|err] g2] eqn:HL.
  2:{ rewrite (loadMe_fetch_error m e g _ g1 err g2 Hr HL).
      econstructor; eauto. }
  assert (Hf : fetches m e g (GetDeviceID c) upak g2)
    by (exists g1; auto).
  destruct (Z.eq_dec (Status (Current upak)) StatusCode_SCDeleted) as [Hs|Hs].
  { rewrite (loadMe_deleted m e g _ upak g2 Hf Hs). econstructor; eauto. }
  destruct (stale (Current upak) (GetDeviceID c)) eqn:Hst.
  - destruct (m_SwitchUserNukeConfig m
                (NewNormalizedUsername (Username (Current upak))) g2)
      as [tmp g3] eqn:Hn.
    rewrite (loadMe_stale m e g _ upak g2 tmp g3 Hf Hs Hst Hn).
    econstructor; eauto.
  - rewrite (loadMe_valid m e g _ upak g2 Hf Hs Hst). econstructor; eauto.
Qed.

(** The reads of a validation are functions of the start state. *)
Lemma reaches_fetch_fun e g d g1 d' g1' :
  reaches_fetch m e g d g1 -> reaches_fetch m e g d' g1' ->
  d = d' /\ g1 = g1'.
Proof.
  intros (c & H & <- & _) (c' & H' & <- & _).
  rewrite H in H'. inversion H'. auto.
Qed.

Lemma fetches_fun e g d upak g2 d' upak' g2' :
  fetches m e g d upak g2 -> fetches m e g d' upak' g2' ->
  d = d' /\ upak = upak' /\ g2 = g2'.
Proof.
  intros (g1 & Hr & HL) (g1' & Hr' & HL').
  destruct (reaches_fetch_fun _ _ _ _ _ _ Hr Hr') as [-> ->].
  rewrite HL in HL'. inversion HL'. auto.
Qed.

End ValidatorTotal.

(** ** Counting events *)

Lemma filter_config_events p e :
  p EvGetUserConfig = false ->
  (forall nu, p (EvGetUserConfigForUsername nu) = false) ->
  (forall f a, p (EvDebugf f a) = false) ->
  filter p (config_events e) = [].
Proof.
  intros H1 H2 H3. unfold config_events.
  destruct (Nat.eqb (String.length (username e)) 0); simpl;
    rewrite ?H1, ?H2, ?H3; reflexivity.
Qed.

Lemma filter_nuke_warning p tmp :
  (forall f a, p (EvWarningf f a) = false) ->
  filter p (nuke_warning tmp) = [].
Proof. intros H. destruct tmp; simpl; rewrite ?H; reflexivity. Qed.

Lemma stale_event_debug u d :
  exists f a, stale_event u d = EvDebugf f a.
Proof. unfold stale_event. destruct (FindSigningDeviceKey u d); eauto. Qed.

(** Session-side events: login delegation, marker write, notification,
    hooks. *)
Definition is_session_event (ev : event) : bool :=
  is_login ev || is_set_provisioned ev || is_notify ev || is_hooks ev.

Ltac filter_trace :=
  repeat progress
    (simpl; rewrite ?filter_app;
     rewrite ?filter_config_events by (intros; reflexivity);
     rewrite ?filter_nuke_warning by (intros; reflexivity)).

Section ValidatorTraces.

Context {G : Type}.
Variable m : MetaContext G.

(** The validator never touches the session side. *)
Lemma loadMe_no_session_event e g :
  filter is_session_event (trace (loadMe m e g)) = [].
Proof.
  destruct (loadMe_validation m e g) as [| | | | |d upak g2 tmp g3 _ _ _ _|];
    unfold trace;
    try (destruct (stale_event_debug (Current upak) d) as (f & a & ->));
    filter_trace; reflexivity.
Qed.

End ValidatorTraces.

(** ** Stale devices, in words and as the code tests them *)

Lemma stale_iff u d :
  stale u d = true <-> device_absent u d \/ device_revoked u d.
Proof.
  unfold stale, device_absent, device_revoked, FindSigningDeviceKey.
  split.
  - destruct (find _ (DeviceKeys u)) as [dev|] eqn:Hf.
    + destruct (Revocation (Base dev)) eqn:Hr; [|discriminate].
      intros _. right. exists dev. split; [reflexivity|congruence].
    + intros _. left. intros k Hk Heq.
      pose proof (find_none _ _ Hf k Hk) as Hn. simpl in Hn.
      unfold DeviceID_Eq in Hn. apply String.eqb_neq in Hn. contradiction.
  - intros [Ha | (k & Hk & Hr)].
    + destruct (find _ (DeviceKeys u)) as [dev|] eqn:Hf; [|reflexivity].
      apply find_some in Hf. destruct Hf as [Hin Heq].
      unfold DeviceID_Eq in Heq. apply String.eqb_eq in Heq.
      exfalso. exact (Ha dev Hin Heq).
    + rewrite Hk. destruct (Revocation (Base k)); [reflexivity|congruence].
Qed.

(** ** Properties of the validator *)

(** C3. When the authoritative record is fetched and reports the account
    deleted, [loadMe] returns [UserDeletedError] whatever the record's
    device list holds, and no deletion of the local configuration is
    attempted. *)
Theorem loadMe_deleted_account {G} (m : MetaContext G) e g d upak g2 :
  fetches m e g d upak g2 ->
  Status (Current upak) = StatusCode_SCDeleted ->
  value (loadMe m e g) = (e, Some UserDeletedError)
  /\ filter is_nuke (trace (loadMe m e g)) = []
  /\ final (loadMe m e g) = g2.
Proof.
  intros Hf Hs. rewrite (loadMe_deleted m e g d upak g2 Hf Hs).
  unfold value, final, trace. filter_trace. auto.
Qed.

(** Frank's account is deleted while his device D6 is still listed,
    unrevoked. *)
Lemma loadMe_deleted_account_witness :
  stale Fake.frank_remote "D6" = false
  /\ value (loadMe Fake.ctx (NewLoginProvisionedDevice "frank") Fake.w0)
     = (NewLoginProvisionedDevice "frank", Some UserDeletedError)
  /\ filter is_nuke
       (trace (loadMe Fake.ctx (NewLoginProvisionedDevice "frank") Fake.w0))
     = []
  /\ final (loadMe Fake.ctx (NewLoginProvisionedDevice "frank") Fake.w0)
     = Fake.w0.
Proof.
  split; [reflexivity|].
  apply (loadMe_deleted_account Fake.ctx (NewLoginProvisionedDevice "frank")
           Fake.w0 "D6" {| Current := Fake.frank_remote |} Fake.w0).
  - exists Fake.w0. split; [|reflexivity].
    exists Fake.frank_cfg. repeat split; reflexivity.
  - reflexivity.
Defined.

(** The reading of C4 that ignores the account status: every fetched
    record in which the stored device is absent or revoked gives
    [errNoDevice] and exactly one deletion attempt. *)
Definition stale_always_nuked : Prop :=
  forall (G : Type) (m : MetaContext G) e g d upak g2,
    fetches m e g d upak g2 ->
    device_absent (Current upak) d \/ device_revoked (Current upak) d ->
    snd (value (loadMe m e g)) = Some errNoDevice
    /\ count is_nuke (trace (loadMe m e g)) = 1.

(** Dave's device D4 is absent from his record, but his account is
    deleted: the outcome is [UserDeletedError] and nothing is deleted. *)
Lemma stale_always_nuked_fails_on_deleted_account : ~ stale_always_nuked.
Proof.
  intros H.
  destruct (H Fake.World Fake.ctx (NewLoginProvisionedDevice "dave") Fake.w0
              "D4" {| Current := Fake.dave_remote |} Fake.w0) as [Hv _].
  - exists Fake.w0. split; [|reflexivity].
    exists Fake.dave_cfg. repeat split; reflexivity.
  - left. intros k [].
  - vm_compute in Hv. discriminate Hv.
Qed.

(** C4 (amended). When the authoritative record is fetched, does not
    report the account deleted, and the stored device identifier is absent
    from its device list or found there with a revocation marker, [loadMe]
    attempts exactly one deletion of the local configuration, for the
    canonical username, and returns [errNoDevice]; a failure of the
    deletion only adds a warning. *)
Theorem loadMe_stale_device {G} (m : MetaContext G) e g d upak g2 :
  fetches m e g d upak g2 ->
  Status (Current upak) <> StatusCode_SCDeleted ->
  device_absent (Current upak) d \/ device_revoked (Current upak) d ->
  let nu := NewNormalizedUsername (Username (Current upak)) in
  let tmp := fst (m_SwitchUserNukeConfig m nu g2) in
  value (loadMe m e g) = (e, Some errNoDevice)
  /\ filter is_nuke (trace (loadMe m e g)) = [EvSwitchUserNukeConfig nu]
  /\ filter is_warning (trace (loadMe m e g)) = nuke_warning tmp
  /\ final (loadMe m e g) = snd (m_SwitchUserNukeConfig m nu g2).
Proof.
  intros Hf Hs Hst nu tmp. apply stale_iff in Hst.
  subst tmp.
  destruct (m_SwitchUserNukeConfig m nu g2) as [tmp g3] eqn:Hn.
  rewrite (loadMe_stale m e g d upak g2 tmp g3 Hf Hs Hst Hn).
  unfold value, final, trace.
  destruct (stale_event_debug (Current upak) d) as (f & a & ->).
  filter_trace. fold nu. repeat split.
  destruct tmp; reflexivity.
Qed.

(** Alice's device D2 is not in her record, and the configuration store
    refuses the deletion. *)
Lemma loadMe_stale_device_witness :
  let e := NewLoginProvisionedDevice "Alice" in
  let w := Fake.failing_nuke Fake.w0 in
  value (loadMe Fake.ctx e w) = (e, Some errNoDevice)
  /\ filter is_nuke (trace (loadMe Fake.ctx e w))
     = [EvSwitchUserNukeConfig "alice"]
  /\ filter is_warning (trace (loadMe Fake.ctx e w))
     = [EvWarningf "Error clearing user config: %s"
                   [ArgError (ExternalError "config is read-only")]]
  /\ final (loadMe Fake.ctx e w) = w.
Proof.
  intros e w.
  apply (loadMe_stale_device Fake.ctx e w "D2"
           {| Current := Fake.alice_remote |} w).
  - exists w. split; [|reflexivity].
    exists Fake.alice_cfg. repeat split; reflexivity.
  - discriminate.
  - left. intros k [<- | []]. discriminate.
Defined.

(** C5. When a configuration entry is found but its stored device
    identifier is nil, [loadMe] returns [errNoDevice] without calling the
    identity loader and without attempting a deletion. *)
Theorem loadMe_missing_device {G} (m : MetaContext G) e g c g1 :
  config_read m e g = ((Some c, None), g1) ->
  DeviceID_IsNil (GetDeviceID c) = true ->
  value (loadMe m e g) = (e, Some errNoDevice)
  /\ filter is_load (trace (loadMe m e g)) = []
  /\ filter is_nuke (trace (loadMe m e g)) = []
  /\ final (loadMe m e g) = g1.
Proof.
  intros Hc Hd. rewrite (loadMe_nil_device m e g c g1 Hc Hd).
  unfold value, final, trace. filter_trace. auto.
Qed.

(** Carol's entry has no device. *)
Lemma loadMe_missing_device_witness :
  let e := NewLoginProvisionedDevice "carol" in
  value (loadMe Fake.ctx e Fake.w0) = (e, Some errNoDevice)
  /\ filter is_load (trace (loadMe Fake.ctx e Fake.w0)) = []
  /\ filter is_nuke (trace (loadMe Fake.ctx e Fake.w0)) = []
  /\ final (loadMe Fake.ctx e Fake.w0) = Fake.w0.
Proof.
  intros e.
  apply (loadMe_missing_device Fake.ctx e Fake.w0 Fake.carol_cfg Fake.w0);
    reflexivity.
Defined.

(** C6. A validation that reaches the fetch calls the loader once, with
    force-poll set; when the loader fails, [loadMe] returns the loader's
    error itself. *)
Theorem loadMe_fetch_forced {G} (m : MetaContext G) e g d g1 :
  reaches_fetch m e g d g1 ->
  exists arg,
    filter is_load (trace (loadMe m e g)) = [EvLoadV2 arg]
    /\ ForcePoll arg = true
    /\ forall err g2,
         UPAKLoader_LoadV2 m arg g1 = (LoadErr err, g2) ->
         value (loadMe m e g) = (e, Some err) /\ final (loadMe m e g) = g2.
Proof.
  intros Hr. exists (load_arg e). split; [|split].
  - destruct (loadMe_validation m e g)
      as [oc err0 g1' Hc|g1' Hc|c g1' Hc Hd|d' g1' err g2 Hr' HL
          |d' upak g2 Hf Hs|d' upak g2 tmp g3 Hf Hs Hst Hn|d' upak g2 Hf Hs Hst];
      unfold trace;
      try (destruct (stale_event_debug (Current upak) d') as (f & a & ->));
      filter_trace; try reflexivity; exfalso;
      destruct Hr as (c0 & Hc0 & Hd1 & Hd0); rewrite Hc0 in Hc;
      inversion Hc; subst; congruence.
  - unfold load_arg.
    destruct (Nat.eqb (String.length (username e)) 0); reflexivity.
  - intros err g2 HL.
    rewrite (loadMe_fetch_error m e g d g1 err g2 Hr HL). auto.
Qed.

(** Alice's entry has device D2, and the network is down. *)
Lemma loadMe_fetch_forced_witness :
  let e := NewLoginProvisionedDevice "Alice" in
  let w := Fake.failing_load Fake.w0 in
  (exists arg,
     filter is_load (trace (loadMe Fake.ctx e w)) = [EvLoadV2 arg]
     /\ ForcePoll arg = true
     /\ forall err g2,
          UPAKLoader_LoadV2 Fake.ctx arg w = (LoadErr err, g2) ->
          value (loadMe Fake.ctx e w) = (e, Some err)
          /\ final (loadMe Fake.ctx e w) = g2)
  /\ value (loadMe Fake.ctx e w)
     = (e, Some (ExternalError "network unreachable")).
Proof.
  intros e w. split; [|reflexivity].
  apply (loadMe_fetch_forced Fake.ctx e w "D2" w).
  exists Fake.alice_cfg. repeat split; reflexivity.
Defined.

(** C10. [loadMe] changes the engine's username only when it succeeds, and
    then to the canonical username of the fetched record; whenever it
    returns an error the engine is as it was. *)
Theorem loadMe_username_frame {G} (m : MetaContext G) e g :
  match snd (value (loadMe m e g)) with
  | Some _ => fst (value (loadMe m e g)) = e
  | None =>
      exists d upak g2,
        fetches m e g d upak g2
        /\ fst (value (loadMe m e g))
           = {| username := NewNormalizedUsername (Username (Current upak));
                SecretStoreOnly := SecretStoreOnly e |}
  end.
Proof.
  destruct (loadMe_validation m e g)
    as [| | | | | |d upak g2 Hf Hs Hst]; unfold value; simpl; try reflexivity.
  exists d, upak, g2. split; [exact Hf|reflexivity].
Qed.

(** ** The dispatcher, step by step *)

Definition run_name : string := "LoginProvisionedDevice#run".

Section DispatcherSteps.

Context {G : Type}.
Variable m : MetaContext G.

(** The already-logged-in test of [run] (lines 140-141): its verdict, the
    session's uid, the state it leaves and the calls it makes.  The
    username of the session is only asked for when somebody is logged in
    and a username was requested. *)
Definition login_check (e : LoginProvisionedDevice) (g : G)
  : bool * UID * G * list event :=
  let '((in_, uid), g0) := m_isLoggedIn m g in
  if (in_ : bool) then
    if Nat.eqb (String.length (username e)) 0
    then (true, uid, g0, [EvIsLoggedIn])
    else
      let '(u, g1) := Env_GetUsernameForUID m uid g0 in
      (NormalizedUsername_Eq u (username e), uid, g1,
       [EvIsLoggedIn; EvGetUsernameForUID uid])
  else (false, uid, g0, [EvIsLoggedIn]).

(** The login delegation of [run] (lines 163-172). *)
Definition delegation (e : LoginProvisionedDevice) : M G (option error) :=
  if SecretStoreOnly e then
    LoginWithStoredSecret m (NormalizedUsername_String (username e))
                          (afterLogin m)
  else
    LoginWithPrompt m (NormalizedUsername_String (username e))
                    (LoginUI (m_UIs m)) (SecretUI (m_UIs m))
                    (afterLogin m).

(** The credential exchange the delegation starts with. *)
Definition exchange (e : LoginProvisionedDevice) (g : G)
  : option error * G :=
  if SecretStoreOnly e then
    LoginState_storedSecretExchange m (username e) g
  else
    LoginState_promptExchange m (username e)
                              (LoginUI (m_UIs m)) (SecretUI (m_UIs m)) g.

Definition login_event (e : LoginProvisionedDevice) : event :=
  if SecretStoreOnly e then EvLoginWithStoredSecret (username e)
  else EvLoginWithPrompt (username e)
                         (LoginUI (m_UIs m)) (SecretUI (m_UIs m)).

Definition marker_warning (r : option error) : list event :=
  match r with
  | Some err => [EvWarningf "error saving session file: %s" [ArgError err]]
  | None => []
  end.

Definition success_events (u : string) : list event :=
  [EvDebugf "LoginProvisionedDevice success, sending login notification" [];
   EvGetUsername; EvHandleLogin u;
   EvDebugf "LoginProvisionedDevice success, calling login hooks" [];
   EvCallLoginHooks].

(** [run] reaches the login delegation from state [g]: the
    already-logged-in test fails and the validator succeeds, leaving
    engine [e'] and state [g2]. *)
Definition reaches_login (e : LoginProvisionedDevice) (g : G)
  (e' : LoginProvisionedDevice) (g2 : G) : Prop :=
  exists uid g1 evs,
    login_check e g = (false, uid, g1, evs)
    /\ value (loadMe m e g1) = (e', None)
    /\ final (loadMe m e g1) = g2.

Lemma afterLogin_eq g :
  afterLogin m g =
    let '(d, g1) := Env_GetDeviceID m g in
    let '(r, g2) := LocalSession_SetDeviceProvisioned m d g1 in
    (None, g2,
     [EvGetDeviceID; EvSetDeviceProvisioned d] ++ marker_warning r).
Proof.
  unfold_engine.
  destruct (Env_GetDeviceID m g) as [d g1].
  destruct (LocalSession_SetDeviceProvisioned m d g1) as [[err|] g2];
    reflexivity.
Qed.

Lemma afterLogin_value g : value (afterLogin m g) = None.
Proof.
  rewrite afterLogin_eq.
  destruct (Env_GetDeviceID m g) as [d g1].
  destruct (LocalSession_SetDeviceProvisioned m d g1) as [r g2].
  reflexivity.
Qed.

Lemma delegation_failure e g err g3 :
  exchange e g = (Some err, g3) ->
  delegation e g = (Some err, g3, [login_event e]).
Proof.
  unfold exchange, delegation, login_event, LoginWithStoredSecret,
    LoginWithPrompt, NormalizedUsername_String, bind, call, ret.
  destruct (SecretStoreOnly e); intros ->; reflexivity.
Qed.

Lemma delegation_success e g g3 :
  exchange e g = (None, g3) ->
  delegation e g =
    (None, final (afterLogin m g3),
     login_event e :: trace (afterLogin m g3)).
Proof.
  unfold exchange, delegation, login_event, LoginWithStoredSecret,
    LoginWithPrompt, NormalizedUsername_String, bind, call, ret.
  destruct (SecretStoreOnly e); intros ->;
    pose proof (afterLogin_value g3) as Hv; unfold value in Hv;
    unfold final, trace;
    destruct (afterLogin m g3) as [[v g4] t]; simpl in *; subst v;
    reflexivity.
Qed.

(** The delegation returns the error of the exchange. *)
Lemma delegation_value e g :
  value (delegation e g) = fst (exchange e g).
Proof.
  destruct (exchange e g) as [[err|] g3] eqn:Hx.
  - rewrite (delegation_failure e g err g3 Hx). reflexivity.
  - rewrite (delegation_success e g g3 Hx). reflexivity.
Qed.

Lemma run_short e g uid g1 evs :
  login_check e g = (true, uid, g1, evs) ->
  run m e g =
    ((e, None), g1,
     EvTraceEnter run_name :: evs ++
     [EvDebugf "user %s already logged in; short-circuting" [ArgString uid];
      EvTraceExit run_name None]).
Proof.
  unfold login_check, run, CTrace, isLoggedIn, GetUsernameForUID, CDebugf,
    bind, call, emit, ret.
  destruct (m_isLoggedIn m g) as [[in_ uid0] g0].
  destruct in_; [|discriminate].
  destruct (Nat.eqb (String.length (username e)) 0).
  - intros H; inversion H; subst. reflexivity.
  - destruct (Env_GetUsernameForUID m uid0 g0) as [u g1'].
    intros H; inversion H; subst. simpl.
    match goal with H : _ = true |- _ => rewrite H end. reflexivity.
Qed.

Lemma run_not_short e g uid g1 evs :
  login_check e g = (false, uid, g1, evs) ->
  run m e g =
    let '((e1, err), g2, tr) := loadMe m e g1 in
    match err with
    | Some _ =>
        ((e1, None), g2,
         EvTraceEnter run_name :: evs ++ tr ++ [EvTraceExit run_name None])
    | None =>
        let '(r, g3, tr') := delegation e1 g2 in
        ((e1, r), g3,
         EvTraceEnter run_name :: evs ++ tr ++ tr'
         ++ [EvTraceExit run_name r])
    end.
Proof.
  unfold login_check, run, CTrace, isLoggedIn, GetUsernameForUID, CDebugf,
    bind, call, emit, ret.
  destruct (m_isLoggedIn m g) as [[in_ uid0] g0].
  destruct in_.
  - destruct (Nat.eqb (String.length (username e)) 0); [discriminate|].
    destruct (Env_GetUsernameForUID m uid0 g0) as [u g1'].
    intros H; inversion H; subst. simpl.
    match goal with H : _ = false |- _ => rewrite H end.
    destruct (loadMe m e g1) as [[[e1 [err|]] g2] tr]; simpl.
    + rewrite app_nil_r. reflexivity.
    + unfold delegation.
      destruct (_ g2) as [[[err1|] g3] tr']; simpl;
        rewrite ?app_nil_r, <- ?app_assoc; reflexivity.
  - intros H; inversion H; subst. simpl.
    destruct (loadMe m e g1) as [[[e1 [err|]] g2] tr]; simpl.
    + rewrite app_nil_r. reflexivity.
    + unfold delegation.
      destruct (_ g2) as [[[err1|] g3] tr']; simpl;
        rewrite ?app_nil_r, <- ?app_assoc; reflexivity.
Qed.

End DispatcherSteps.

(** ** Traces of the dispatcher *)

Lemma filter_nil_weaken (p q : event -> bool) tr :
  (forall ev, q ev = true -> p ev = true) ->
  filter p tr = [] -> filter q tr = [].
Proof.
  intros Hpq. induction tr as [|ev tr IH]; simpl; [reflexivity|].
  destruct (p ev) eqn:Hp; [discriminate|].
  destruct (q ev) eqn:Hq.
  - rewrite (Hpq ev Hq) in Hp. discriminate.
  - exact IH.
Qed.

(** Marker write, notification, hooks. *)
Definition is_post_login (ev : event) : bool :=
  is_set_provisioned ev || is_notify ev || is_hooks ev.

Definition is_announce (ev : event) : bool := is_notify ev || is_hooks ev.

Section DispatcherTraces.

Context {G : Type}.
Variable m : MetaContext G.

Lemma Run_eq e g :
  Run m e g =
    let '((e1, err), g1, tr) := run m e g in
    match err with
    | Some err0 => ((e1, Some err0), g1, tr)
    | None =>
        let '(u, g2) := Env_GetUsername m g1 in
        ((e1, None),
         G_CallLoginHooks m
           (NotifyRouter_HandleLogin m (NormalizedUsername_String u) g2),
         tr ++ success_events u)
    end.
Proof.
  unfold Run, GetUsername, HandleLogin, CallLoginHooks, CDebugf, bind, call,
    call_, emit, ret.
  destruct (run m e g) as [[[e1 [err0|]] g1] tr]; simpl.
  - rewrite app_nil_r. reflexivity.
  - destruct (Env_GetUsername m g1) as [u g2]. reflexivity.
Qed.

Lemma login_check_events (p : event -> bool) e g b uid g1 evs :
  p EvIsLoggedIn = false ->
  (forall u, p (EvGetUsernameForUID u) = false) ->
  login_check m e g = (b, uid, g1, evs) ->
  filter p evs = [].
Proof.
  intros H1 H2. unfold login_check.
  destruct (m_isLoggedIn m g) as [[in_ uid0] g0].
  destruct in_;
    [destruct (Nat.eqb (String.length (username e)) 0);
     [|destruct (Env_GetUsernameForUID m uid0 g0) as [u g1']]|];
    intros H; inversion H; subst; simpl; rewrite ?H1, ?H2; reflexivity.
Qed.

Lemma loadMe_flag e g :
  SecretStoreOnly (fst (value (loadMe m e g))) = SecretStoreOnly e.
Proof.
  destruct (loadMe_validation m e g); reflexivity.
Qed.

Lemma loadMe_filter (p : event -> bool) e g :
  (forall ev, p ev = true -> is_session_event ev = true) ->
  filter p (trace (loadMe m e g)) = [].
Proof.
  intros H. apply (filter_nil_weaken is_session_event p); [exact H|].
  apply loadMe_no_session_event.
Qed.

Lemma filter_login_event (p : event -> bool) e :
  (forall u, p (EvLoginWithStoredSecret u) = false) ->
  (forall u a b, p (EvLoginWithPrompt u a b) = false) ->
  filter p [login_event m e] = [].
Proof.
  intros H1 H2. unfold login_event.
  destruct (SecretStoreOnly e); simpl; rewrite ?H1, ?H2; reflexivity.
Qed.

Lemma filter_marker_warning (p : event -> bool) r :
  (forall f a, p (EvWarningf f a) = false) ->
  filter p (marker_warning r) = [].
Proof. intros H. destruct r; simpl; rewrite ?H; reflexivity. Qed.

(** What [run] and [Run] do once the delegation is reached. *)
Lemma run_login_path e g e' g2 :
  reaches_login m e g e' g2 ->
  exists evs tr,
    (forall p, p EvIsLoggedIn = false ->
               (forall u, p (EvGetUsernameForUID u) = false) ->
               filter p evs = [])
    /\ (forall p, (forall ev, p ev = true -> is_session_event ev = true) ->
                  filter p tr = [])
    /\ run m e g =
         ((e', value (delegation m e' g2)), final (delegation m e' g2),
          EvTraceEnter run_name :: evs ++ tr ++ trace (delegation m e' g2)
          ++ [EvTraceExit run_name (value (delegation m e' g2))]).
Proof.
  intros (uid & g1 & evs & Hc & Hv & Hf).
  exists evs, (trace (loadMe m e g1)). split; [|split].
  - intros p H1 H2. exact (login_check_events p e g _ _ _ _ H1 H2 Hc).
  - intros p Hp. apply loadMe_filter. exact Hp.
  - rewrite (run_not_short m e g uid g1 evs Hc).
    unfold value, final, trace in *.
    destruct (loadMe m e g1) as [[[e1 err] g2'] tr]. simpl in *.
    inversion Hv; subst.
    destruct (delegation m e' _) as [[r g3] tr']. reflexivity.
Qed.

(** What [Run] does when the validator fails: [run] drops the error. *)
Lemma Run_validator_failure e g uid g1 evs e' err :
  login_check m e g = (false, uid, g1, evs) ->
  value (loadMe m e g1) = (e', Some err) ->
  value (run m e g) = (e', None)
  /\ value (Run m e g) = (e', None)
  /\ filter is_login (trace (Run m e g)) = []
  /\ exists u, filter is_announce (trace (Run m e g))
               = [EvHandleLogin u; EvCallLoginHooks].
Proof.
  intros Hc Hv.
  pose proof (loadMe_filter is_login e g1) as Hl.
  pose proof (loadMe_filter is_announce e g1) as Ha.
  pose proof (login_check_events is_login e g _ _ _ _ eq_refl
                (fun _ => eq_refl) Hc) as Hel.
  pose proof (login_check_events is_announce e g _ _ _ _ eq_refl
                (fun _ => eq_refl) Hc) as Hea.
  rewrite Run_eq, (run_not_short m e g uid g1 evs Hc).
  unfold value, trace in *.
  destruct (loadMe m e g1) as [[[e1 oerr] g2] tr]. simpl in *.
  inversion Hv; subst. simpl.
  destruct (Env_GetUsername m g2) as [u g3]. simpl.
  split; [reflexivity|]. split; [reflexivity|]. split.
  - rewrite !filter_app, Hel, Hl; [reflexivity|].
    intros ev H. unfold is_session_event. rewrite H. reflexivity.
  - exists u. rewrite !filter_app, Hea, Ha; [reflexivity|].
    intros ev H. unfold is_session_event, is_announce in *.
    destruct (is_notify ev), (is_hooks ev); try discriminate;
      rewrite ?orb_true_r; reflexivity.
Qed.

End DispatcherTraces.

(** ** Properties of the dispatcher *)

(** C1. The claim: when the validator returns NoConfig, NoDevice or
    AccountDeleted, the dispatcher returns that failure and does not
    attempt a login.  On the code the login is indeed not attempted, but
    [run] answers [nil] to the validator's error, so [Run] reports success
    and sends the login notification.  Three runs of the fake: no
    configuration at all, Carol's entry without device, Dave's deleted
    account. *)
Theorem Run_swallows_validator_failure :
  let e0 := NewLoginProvisionedDevice "" in
  let e1 := NewLoginProvisionedDevice "carol" in
  let e2 := NewLoginProvisionedDevice "dave" in
  (value (loadMe Fake.ctx e0 Fake.w_empty) = (e0, Some errNoConfig)
   /\ value (Run Fake.ctx e0 Fake.w_empty) = (e0, None)
   /\ filter is_login (trace (Run Fake.ctx e0 Fake.w_empty)) = []
   /\ filter is_announce (trace (Run Fake.ctx e0 Fake.w_empty))
      = [EvHandleLogin ""; EvCallLoginHooks])
  /\ (value (loadMe Fake.ctx e1 Fake.w0) = (e1, Some errNoDevice)
      /\ value (Run Fake.ctx e1 Fake.w0) = (e1, None)
      /\ filter is_login (trace (Run Fake.ctx e1 Fake.w0)) = []
      /\ filter is_announce (trace (Run Fake.ctx e1 Fake.w0))
         = [EvHandleLogin "bob"; EvCallLoginHooks])
  /\ (value (loadMe Fake.ctx e2 Fake.w0) = (e2, Some UserDeletedError)
      /\ value (Run Fake.ctx e2 Fake.w0) = (e2, None)
      /\ filter is_login (trace (Run Fake.ctx e2 Fake.w0)) = []
      /\ filter is_announce (trace (Run Fake.ctx e2 Fake.w0))
         = [EvHandleLogin "bob"; EvCallLoginHooks]).
Proof.
  repeat split; vm_compute; reflexivity.
Qed.

(** The session is logged in as [U] and the request is for nobody in
    particular or for [U]. *)
Definition already_logged_in {G} (m : MetaContext G)
  (e : LoginProvisionedDevice) (g : G) (requested : string)
  (U : NormalizedUsername) : Prop :=
  exists uid g0 g1,
    m_isLoggedIn m g = ((true, uid), g0)
    /\ Env_GetUsernameForUID m uid g0 = (U, g1)
    /\ username e = NewNormalizedUsername requested
    /\ (requested = "" \/ NewNormalizedUsername requested = U).

Lemma already_logged_in_check {G} (m : MetaContext G) e g requested U :
  already_logged_in m e g requested U ->
  exists uid g1 evs, login_check m e g = (true, uid, g1, evs).
Proof.
  intros (uid & g0 & g1 & Hin & Hu & He & Hreq).
  unfold login_check. rewrite Hin.
  destruct (Nat.eqb (String.length (username e)) 0) eqn:Hlen; [eauto|].
  rewrite Hu. destruct Hreq as [-> | Heq].
  - rewrite He in Hlen. discriminate.
  - rewrite He, Heq. unfold NormalizedUsername_Eq.
    rewrite String.eqb_refl. eauto.
Qed.

(** The reading of C2 on the whole operation: an already-logged-in
    invocation succeeds with no loader call, no login, no notification
    and no hooks. *)
Definition short_circuit_silent : Prop :=
  forall (G : Type) (m : MetaContext G) e g requested U,
    already_logged_in m e g requested U ->
    value (Run m e g) = (e, None)
    /\ count is_load (trace (Run m e g)) = 0
    /\ count is_login (trace (Run m e g)) = 0
    /\ count is_notify (trace (Run m e g)) = 0
    /\ count is_hooks (trace (Run m e g)) = 0.

(** Bob is logged in and asks for "bob": [Run] notifies and calls the
    hooks. *)
Lemma short_circuit_silent_fails : ~ short_circuit_silent.
Proof.
  intros H.
  destruct (H Fake.World Fake.ctx (NewLoginProvisionedDevice "bob")
              Fake.w_bob "bob" "bob") as (_ & _ & _ & Hn & _).
  - exists "uid-bob", Fake.w_bob, Fake.w_bob. repeat split; auto.
  - vm_compute in Hn. discriminate Hn.
Qed.

(** C2 (amended). When the session is logged in as [U] and the requested
    username is empty or normalizes to [U], [run] returns success at once:
    no loader call, no login delegation, no marker write, no notification,
    no hooks.  [Run], the entry point, returns success as well, without
    loader call or login delegation, and then sends the login notification
    and calls the login hooks, once each, as after every success of
    [run]. *)
Theorem run_short_circuit {G} (m : MetaContext G) e g requested U :
  already_logged_in m e g requested U ->
  (value (run m e g) = (e, None)
   /\ filter is_load (trace (run m e g)) = []
   /\ filter is_session_event (trace (run m e g)) = [])
  /\ (value (Run m e g) = (e, None)
      /\ filter is_load (trace (Run m e g)) = []
      /\ filter is_login (trace (Run m e g)) = []
      /\ exists u, filter is_announce (trace (Run m e g))
                   = [EvHandleLogin u; EvCallLoginHooks]).
Proof.
  intros Ha.
  destruct (already_logged_in_check m e g requested U Ha)
    as (uid & g1 & evs & Hc).
  pose proof (fun p H1 H2 => login_check_events m p e g _ _ _ _ H1 H2 Hc)
    as Hevs.
  rewrite Run_eq, (run_short m e g uid g1 evs Hc).
  destruct (Env_GetUsername m g1) as [u g2].
  unfold value, trace. simpl.
  rewrite !filter_app. simpl.
  rewrite !Hevs by (intros; reflexivity).
  repeat split. exists u. reflexivity.
Qed.

Lemma run_short_circuit_witness :
  let e := NewLoginProvisionedDevice "Bob" in
  (value (run Fake.ctx e Fake.w_bob) = (e, None)
   /\ filter is_load (trace (run Fake.ctx e Fake.w_bob)) = []
   /\ filter is_session_event (trace (run Fake.ctx e Fake.w_bob)) = [])
  /\ (value (Run Fake.ctx e Fake.w_bob) = (e, None)
      /\ filter is_load (trace (Run Fake.ctx e Fake.w_bob)) = []
      /\ filter is_login (trace (Run Fake.ctx e Fake.w_bob)) = []
      /\ exists u, filter is_announce (trace (Run Fake.ctx e Fake.w_bob))
                   = [EvHandleLogin u; EvCallLoginHooks]).
Proof.
  intros e.
  apply (run_short_circuit Fake.ctx e Fake.w_bob "Bob" "bob").
  exists "uid-bob", Fake.w_bob, Fake.w_bob. repeat split; auto.
Defined.

(** C7. An invocation that reaches the login delegation makes exactly one
    login call: with the stored secret when [SecretStoreOnly] is set, with
    the prompt otherwise.  An error of the delegation is what [Run]
    returns, and no second login call follows it. *)
Theorem Run_one_login_mode {G} (m : MetaContext G) e g e' g2 :
  reaches_login m e g e' g2 ->
  filter is_login (trace (Run m e g))
  = [if SecretStoreOnly e
     then EvLoginWithStoredSecret (username e')
     else EvLoginWithPrompt (username e')
                            (LoginUI (m_UIs m)) (SecretUI (m_UIs m))]
  /\ forall err,
       value (delegation m e' g2) = Some err ->
       value (Run m e g) = (e', Some err)
       /\ final (Run m e g) = final (delegation m e' g2).
Proof.
  intros Hr.
  assert (Hflag : SecretStoreOnly e' = SecretStoreOnly e).
  { destruct Hr as (uid & g1 & evs & _ & Hv & _).
    pose proof (loadMe_flag m e g1) as Hf. rewrite Hv in Hf. exact Hf. }
  destruct (run_login_path m e g e' g2 Hr) as (evs & tr & Hevs & Htr & Hrun).
  rewrite Run_eq, Hrun.
  assert (Hlogin : filter is_login (trace (delegation m e' g2))
                   = [login_event m e']).
  { destruct (exchange m e' g2) as [[err|] g3] eqn:Hx.
    - rewrite (delegation_failure m e' g2 err g3 Hx). unfold trace, login_event.
      destruct (SecretStoreOnly e'); reflexivity.
    - rewrite (delegation_success m e' g2 g3 Hx), afterLogin_eq.
      destruct (Env_GetDeviceID m g3) as [d g4].
      destruct (LocalSession_SetDeviceProvisioned m d g4) as [r g5].
      unfold trace, login_event. simpl.
      rewrite (filter_marker_warning is_login r) by reflexivity.
      destruct (SecretStoreOnly e'); reflexivity. }
  split.
  - destruct (value (delegation m e' g2)) as [err|].
    + unfold trace at 1. simpl. rewrite !filter_app, Hlogin.
      rewrite Hevs, Htr; try reflexivity.
      * unfold login_event. rewrite Hflag. reflexivity.
      * intros ev H. unfold is_session_event. rewrite H. reflexivity.
    + destruct (Env_GetUsername m (final (delegation m e' g2))) as [u g3].
      unfold trace at 1. simpl. rewrite !filter_app, Hlogin.
      rewrite Hevs, Htr; try reflexivity.
      * unfold login_event. rewrite Hflag. reflexivity.
      * intros ev H. unfold is_session_event. rewrite H. reflexivity.
  - intros err Herr. rewrite Herr. split; reflexivity.
Qed.

(** Bob's device is valid, the service starts with the stored secret, and
    the exchange fails. *)
Lemma Run_one_login_mode_witness :
  let e := {| username := ""; SecretStoreOnly := true |} in
  let e' := {| username := "bob"; SecretStoreOnly := true |} in
  let w := Fake.failing_exchange Fake.w0 in
  (filter is_login (trace (Run Fake.ctx e w)) = [EvLoginWithStoredSecret "bob"]
   /\ forall err,
        value (delegation Fake.ctx e' w) = Some err ->
        value (Run Fake.ctx e w) = (e', Some err)
        /\ final (Run Fake.ctx e w) = final (delegation Fake.ctx e' w))
  /\ value (Run Fake.ctx e w) = (e', Some (ExternalError "bad passphrase")).
Proof.
  intros e e' w. split; [|reflexivity].
  apply (Run_one_login_mode Fake.ctx e w e' w).
  exists "", w, [EvIsLoggedIn]. repeat split; reflexivity.
Defined.

(** C8. After a successful credential exchange the callback tries once to
    write the device-provisioned marker, for the device id of the
    environment, and returns nil whether or not the write succeeded; a
    failed write only adds a warning, and [Run] returns success either
    way. *)
Theorem afterLogin_marker_best_effort {G} (m : MetaContext G) e g e' g2 g3 :
  reaches_login m e g e' g2 ->
  exchange m e' g2 = (None, g3) ->
  let d := fst (Env_GetDeviceID m g3) in
  let r := fst (LocalSession_SetDeviceProvisioned m d
                  (snd (Env_GetDeviceID m g3))) in
  value (afterLogin m g3) = None
  /\ filter is_set_provisioned (trace (afterLogin m g3))
     = [EvSetDeviceProvisioned d]
  /\ filter is_warning (trace (afterLogin m g3)) = marker_warning r
  /\ filter is_set_provisioned (trace (Run m e g)) = [EvSetDeviceProvisioned d]
  /\ value (Run m e g) = (e', None).
Proof.
  intros Hr Hx d r. subst d r.
  destruct (run_login_path m e g e' g2 Hr) as (evs & tr & Hevs & Htr & Hrun).
  rewrite Run_eq, Hrun, (delegation_success m e' g2 g3 Hx), afterLogin_eq.
  destruct (Env_GetDeviceID m g3) as [d g4]. simpl fst. simpl snd.
  destruct (LocalSession_SetDeviceProvisioned m d g4) as [r g5].
  unfold value, final, trace. simpl.
  destruct (Env_GetUsername m g5) as [u g6]. simpl.
  rewrite !filter_app. simpl. rewrite !filter_app.
  rewrite (filter_marker_warning is_set_provisioned r) by reflexivity.
  rewrite (Hevs is_set_provisioned) by reflexivity.
  rewrite (Htr is_set_provisioned)
    by (intros ev H; unfold is_session_event; rewrite H;
        rewrite ?orb_true_r; reflexivity).
  assert (Hle : filter is_set_provisioned [login_event m e'] = [])
    by (apply filter_login_event; reflexivity).
  simpl in Hle.
  destruct (is_set_provisioned (login_event m e')); [discriminate|].
  repeat split. destruct r; reflexivity.
Qed.

(** Bob logs in while the session file cannot be written. *)
Lemma afterLogin_marker_best_effort_witness :
  let e := NewLoginProvisionedDevice "" in
  let e' := NewLoginProvisionedDevice "bob" in
  let w := Fake.failing_marker Fake.w0 in
  let w' := Fake.with_session "uid-bob" "bob" w in
  value (afterLogin Fake.ctx w') = None
  /\ filter is_set_provisioned (trace (afterLogin Fake.ctx w'))
     = [EvSetDeviceProvisioned "D1"]
  /\ filter is_warning (trace (afterLogin Fake.ctx w'))
     = [EvWarningf "error saving session file: %s"
                   [ArgError (ExternalError "session file not writable")]]
  /\ filter is_set_provisioned (trace (Run Fake.ctx e w))
     = [EvSetDeviceProvisioned "D1"]
  /\ value (Run Fake.ctx e w) = (e', None).
Proof.
  intros e e' w w'.
  apply (afterLogin_marker_best_effort Fake.ctx e w e' w w').
  - exists "", w, [EvIsLoggedIn]. repeat split; reflexivity.
  - reflexivity.
Defined.

(** C9. After a successful login [Run] returns nil, and among marker
    writes, notifications and hook calls its trace holds exactly: the
    marker write attempt, then one login notification for the username of
    the environment, then one call of the login hooks, whether or not the
    marker write succeeded. *)
Theorem Run_success_effects {G} (m : MetaContext G) e g e' g2 :
  reaches_login m e g e' g2 ->
  value (delegation m e' g2) = None ->
  value (Run m e g) = (e', None)
  /\ exists d,
       filter is_post_login (trace (Run m e g))
       = [EvSetDeviceProvisioned d;
          EvHandleLogin (fst (Env_GetUsername m (final (run m e g))));
          EvCallLoginHooks].
Proof.
  intros Hr Hd.
  destruct (run_login_path m e g e' g2 Hr) as (evs & tr & Hevs & Htr & Hrun).
  rewrite Run_eq, Hrun.
  destruct (exchange m e' g2) as [[err|] g3] eqn:Hx.
  { rewrite (delegation_failure m e' g2 err g3 Hx) in Hd. discriminate Hd. }
  rewrite (delegation_success m e' g2 g3 Hx), afterLogin_eq.
  destruct (Env_GetDeviceID m g3) as [d g4].
  destruct (LocalSession_SetDeviceProvisioned m d g4) as [r g5].
  unfold value, final, trace. simpl.
  destruct (Env_GetUsername m g5) as [u g6]. simpl.
  split; [reflexivity|]. exists d.
  rewrite !filter_app. simpl. rewrite !filter_app.
  rewrite (filter_marker_warning is_post_login r) by reflexivity.
  rewrite (Hevs is_post_login) by reflexivity.
  rewrite (Htr is_post_login).
  2:{ intros ev H. unfold is_session_event, is_post_login in *.
      destruct (is_login ev); [reflexivity|exact H]. }
  assert (Hle : filter is_post_login [login_event m e'] = [])
    by (apply filter_login_event; reflexivity).
  simpl in Hle.
  destruct (is_post_login (login_event m e')); [discriminate|].
  reflexivity.
Qed.

(** Bob logs in with the prompt; the marker write fails, the notification
    and the hooks follow all the same. *)
Lemma Run_success_effects_witness :
  let e := NewLoginProvisionedDevice "" in
  let e' := NewLoginProvisionedDevice "bob" in
  let w := Fake.failing_marker Fake.w0 in
  (value (Run Fake.ctx e w) = (e', None)
   /\ exists d,
        filter is_post_login (trace (Run Fake.ctx e w))
        = [EvSetDeviceProvisioned d;
           EvHandleLogin (fst (Env_GetUsername Fake.ctx
                                 (final (run Fake.ctx e w))));
           EvCallLoginHooks])
  /\ filter is_post_login (trace (Run Fake.ctx e w))
     = [EvSetDeviceProvisioned "D1"; EvHandleLogin "bob"; EvCallLoginHooks]
  /\ filter is_warning (trace (Run Fake.ctx e w))
     = [EvWarningf "error saving session file: %s"
                   [ArgError (ExternalError "session file not writable")]].
Proof.
  intros e e' w. split; [|split; reflexivity].
  apply (Run_success_effects Fake.ctx e w e' w).
  - exists "", w, [EvIsLoggedIn]. repeat split; reflexivity.
  - reflexivity.
Defined.


(** * Further properties of the validator *)

Definition is_config_read (ev : event) : bool :=
  match ev with
  | EvGetUserConfig | EvGetUserConfigForUsername _ => true
  | _ => false
  end.

(** Calls that reach the authority or change the local configuration. *)
Definition is_remote_or_nuke (ev : event) : bool := is_load ev || is_nuke ev.



(** X1. A failed or empty configuration read gives [errNoConfig]: the
    error of the read is replaced, not returned, an entry that comes with
    an error is ignored, and neither the loader nor the deletion is
    called. *)
Theorem loadMe_no_config {G} (m : MetaContext G) e g oc oerr g1 :
  config_read m e g = ((oc, oerr), g1) ->
  oerr <> None \/ oc = None ->
  value (loadMe m e g) = (e, Some errNoConfig)
  /\ filter is_remote_or_nuke (trace (loadMe m e g)) = []
  /\ final (loadMe m e g) = g1.
Proof.
  intros Hc Hor.
  destruct oerr as [err0|].
  - rewrite (loadMe_read_error m e g oc err0 g1 Hc).
    unfold value, final, trace. filter_trace. auto.
  - destruct Hor as [Hn | ->]; [congruence|].
    rewrite (loadMe_no_entry m e g g1 Hc).
    unfold value, final, trace. filter_trace. auto.
Qed.

(** Nobody is configured in the empty world. *)
Lemma loadMe_no_config_witness :
  let e := NewLoginProvisionedDevice "Zoe" in
  value (loadMe Fake.ctx e Fake.w_empty) = (e, Some errNoConfig)
  /\ filter is_remote_or_nuke (trace (loadMe Fake.ctx e Fake.w_empty)) = []
  /\ final (loadMe Fake.ctx e Fake.w_empty) = Fake.w_empty.
Proof.
  intros e.
  apply (loadMe_no_config Fake.ctx e Fake.w_empty None None Fake.w_empty).
  - reflexivity.
  - right. reflexivity.
Defined.

(** X2. When [loadMe] succeeds, a configuration entry with a non-nil
    device id was read, the record was fetched and is not deleted, and the
    record lists that very device id without a revocation. *)
Theorem loadMe_success_sound {G} (m : MetaContext G) e g :
  snd (value (loadMe m e g)) = None ->
  exists d upak g2 k,
    fetches m e g d upak g2
    /\ Status (Current upak) <> StatusCode_SCDeleted
    /\ In k (DeviceKeys (Current upak))
    /\ DeviceID_of k = d
    /\ Revocation (Base k) = None
    /\ final (loadMe m e g) = g2.
Proof.
  destruct (loadMe_validation m e g)
    as [| | | | | |d upak g2 Hf Hs Hst]; unfold value; simpl;
    try discriminate.
  intros _. unfold stale in Hst.
  destruct (FindSigningDeviceKey (Current upak) d) as [k|] eqn:Hk;
    [|discriminate].
  destruct (Revocation (Base k)) eqn:Hr; [discriminate|].
  unfold FindSigningDeviceKey in Hk. apply find_some in Hk.
  destruct Hk as [Hin Heq]. unfold DeviceID_Eq in Heq.
  apply String.eqb_eq in Heq.
  exists d, upak, g2, k. repeat split; auto.
Qed.

Lemma loadMe_success_sound_witness :
  exists d upak g2 k,
    fetches Fake.ctx (NewLoginProvisionedDevice "BOB") Fake.w0 d upak g2
    /\ Status (Current upak) <> StatusCode_SCDeleted
    /\ In k (DeviceKeys (Current upak))
    /\ DeviceID_of k = d
    /\ Revocation (Base k) = None
    /\ final (loadMe Fake.ctx (NewLoginProvisionedDevice "BOB") Fake.w0) = g2.
Proof.
  apply (loadMe_success_sound Fake.ctx (NewLoginProvisionedDevice "BOB")
           Fake.w0).
  reflexivity.
Defined.


(** X4. The record is fetched for the identity whose configuration was
    read: for the session's own user (self flag, no name) when no
    username was requested, by the requested name otherwise; the public
    key is optional and the poll forced in both cases. *)
Theorem loadMe_fetch_identity {G} (m : MetaContext G) e g d g1 :
  reaches_fetch m e g d g1 ->
  let tr := filter (fun ev => is_config_read ev || is_load ev)
                   (trace (loadMe m e g)) in
  (username e = "" ->
   tr = [EvGetUserConfig;
         EvLoadV2 {| PublicKeyOptional := true; ForcePoll := true;
                     Self := true; ArgName := "" |}])
  /\ (username e <> "" ->
      tr = [EvGetUserConfigForUsername (username e);
            EvLoadV2 {| PublicKeyOptional := true; ForcePoll := true;
                        Self := false; ArgName := username e |}]).
Proof.
  intros Hr.
  assert (Htr : filter (fun ev => is_config_read ev || is_load ev)
                       (trace (loadMe m e g))
                = filter (fun ev => is_config_read ev || is_load ev)
                         (config_events e) ++ [EvLoadV2 (load_arg e)]).
  { destruct (loadMe_validation m e g)
      as [oc err0 g1' Hc|g1' Hc|c g1' Hc Hd| | |d' upak g2 tmp g3 _ _ _ _| ];
      unfold trace;
      try (destruct (stale_event_debug (Current upak) d') as (f & a & ->));
      repeat progress
        (simpl; rewrite ?filter_app;
         rewrite ?filter_nuke_warning by (intros; reflexivity));
      rewrite ?app_nil_r;
      try reflexivity; exfalso;
      destruct Hr as (c0 & Hc0 & Hd1 & Hd0); rewrite Hc0 in Hc;
      inversion Hc; subst; congruence. }
  simpl. rewrite Htr. unfold config_events, load_arg. split.
  - intros ->. reflexivity.
  - intros Hne.
    destruct (username e) as [|c r] eqn:Hu; [congruence|]. reflexivity.
Qed.

Lemma loadMe_fetch_identity_witness :
  let e := NewLoginProvisionedDevice "Erin" in
  let tr := filter (fun ev => is_config_read ev || is_load ev)
                   (trace (loadMe Fake.ctx e Fake.w0)) in
  ((username e = "" ->
    tr = [EvGetUserConfig;
          EvLoadV2 {| PublicKeyOptional := true; ForcePoll := true;
                      Self := true; ArgName := "" |}])
   /\ (username e <> "" ->
       tr = [EvGetUserConfigForUsername (username e);
             EvLoadV2 {| PublicKeyOptional := true; ForcePoll := true;
                         Self := false; ArgName := username e |}]))
  /\ tr = [EvGetUserConfigForUsername "erin";
           EvLoadV2 {| PublicKeyOptional := true; ForcePoll := true;
                       Self := false; ArgName := "erin" |}].
Proof.
  intros e tr. split; [|reflexivity].
  apply (loadMe_fetch_identity Fake.ctx e Fake.w0 "D5" Fake.w0).
  exists Fake.erin_cfg. repeat split; reflexivity.
Defined.



(** * Further properties of the dispatcher *)

Section DispatcherCases.

Context {G : Type}.
Variable m : MetaContext G.

(** The three ways through [run]: short circuit, failed validation,
    login delegation. *)
Lemma run_cases e g :
  (exists uid g1 evs, login_check m e g = (true, uid, g1, evs))
  \/ (exists uid g1 evs e' err,
        login_check m e g = (false, uid, g1, evs)
        /\ value (loadMe m e g1) = (e', Some err))
  \/ (exists e' g2, reaches_login m e g e' g2).
Proof.
  destruct (login_check m e g) as [[[b uid] g1] evs] eqn:Hc.
  destruct b; [left; eauto|]. right.
  destruct (loadMe m e g1) as [[[e' oerr] g2] tr] eqn:Hl.
  destruct oerr as [err|].
  - left. exists uid, g1, evs, e', err. rewrite Hl. auto.
  - right. exists e', g2, uid, g1, evs. rewrite Hl. auto.
Qed.

Lemma delegation_trace e g :
  trace (delegation m e g)
  = login_event m e ::
    match exchange m e g with
    | (Some _, _) => []
    | (None, g3) =>
        [EvGetDeviceID; EvSetDeviceProvisioned (fst (Env_GetDeviceID m g3))]
        ++ marker_warning
             (fst (LocalSession_SetDeviceProvisioned m
                     (fst (Env_GetDeviceID m g3))
                     (snd (Env_GetDeviceID m g3))))
    end.
Proof.
  destruct (exchange m e g) as [[err|] g3] eqn:Hx.
  - rewrite (delegation_failure m e g err g3 Hx). reflexivity.
  - rewrite (delegation_success m e g g3 Hx), afterLogin_eq.
    destruct (Env_GetDeviceID m g3) as [d g4]. simpl.
    destruct (LocalSession_SetDeviceProvisioned m d g4) as [r g5].
    reflexivity.
Qed.

Lemma delegation_filter (p : event -> bool) e g :
  (forall u, p (EvLoginWithStoredSecret u) = false) ->
  (forall u a b, p (EvLoginWithPrompt u a b) = false) ->
  p EvGetDeviceID = false ->
  (forall d, p (EvSetDeviceProvisioned d) = false) ->
  (forall f a, p (EvWarningf f a) = false) ->
  filter p (trace (delegation m e g)) = [].
Proof.
  intros H1 H2 H3 H4 H5. rewrite delegation_trace.
  assert (Hle : filter p [login_event m e] = [])
    by (apply filter_login_event; assumption).
  simpl in Hle. simpl.
  destruct (p (login_event m e)); [discriminate|].
  destruct (exchange m e g) as [[err|] g3]; [reflexivity|].
  simpl. rewrite H3, H4, filter_marker_warning by assumption. reflexivity.
Qed.

Lemma delegation_failure_trace e g err :
  value (delegation m e g) = Some err ->
  trace (delegation m e g) = [login_event m e].
Proof.
  destruct (exchange m e g) as [[err1|] g3] eqn:Hx.
  - rewrite (delegation_failure m e g err1 g3 Hx). reflexivity.
  - rewrite (delegation_success m e g g3 Hx). discriminate.
Qed.

Lemma is_announce_session ev :
  is_announce ev = true -> is_session_event ev = true.
Proof.
  unfold is_announce, is_session_event.
  destruct (is_notify ev), (is_hooks ev); try discriminate;
    rewrite ?orb_true_r; reflexivity.
Qed.

Lemma is_login_session ev : is_login ev = true -> is_session_event ev = true.
Proof. unfold is_session_event. intros ->. reflexivity. Qed.

Lemma is_set_provisioned_session ev :
  is_set_provisioned ev = true -> is_session_event ev = true.
Proof.
  unfold is_session_event. intros ->. rewrite ?orb_true_r. reflexivity.
Qed.

Lemma is_prompt_session ev :
  is_prompt_login ev = true -> is_session_event ev = true.
Proof.
  unfold is_session_event, is_login. intros ->.
  rewrite ?orb_true_r. reflexivity.
Qed.

End DispatcherCases.

(** X6. [Run] fails only through the login delegation: whenever it returns
    an error, the already-logged-in test had failed, the validator had
    succeeded, and the error is the one the delegation returned. *)
Theorem Run_error_origin {G} (m : MetaContext G) e g err :
  snd (value (Run m e g)) = Some err ->
  exists e' g2,
    reaches_login m e g e' g2
    /\ value (delegation m e' g2) = Some err
    /\ fst (value (Run m e g)) = e'.
Proof.
  destruct (run_cases m e g)
    as [(uid & g1 & evs & Hc)
       |[(uid & g1 & evs & e' & err' & Hc & Hv)|(e' & g2 & Hr)]].
  - rewrite Run_eq, (run_short m e g uid g1 evs Hc).
    destruct (Env_GetUsername m g1) as [u g2]. discriminate.
  - rewrite Run_eq, (run_not_short m e g uid g1 evs Hc).
    unfold value in *. destruct (loadMe m e g1) as [[[e1 oerr] g2] tr].
    simpl in Hv. inversion Hv; subst.
    destruct (Env_GetUsername m g2) as [u g3]. discriminate.
  - destruct (run_login_path m e g e' g2 Hr) as (evs & tr & _ & _ & Hrun).
    rewrite Run_eq, Hrun.
    destruct (value (delegation m e' g2)) as [err'|] eqn:Hd.
    + unfold value at 1 2. simpl. intros H. inversion H; subst.
      exists e', g2. auto.
    + destruct (Env_GetUsername m (final (delegation m e' g2))) as [u g3].
      discriminate.
Qed.

Lemma Run_error_origin_witness :
  let e := NewLoginProvisionedDevice "" in
  let w := Fake.failing_exchange Fake.w0 in
  exists e' g2,
    reaches_login Fake.ctx e w e' g2
    /\ value (delegation Fake.ctx e' g2)
       = Some (ExternalError "bad passphrase")
    /\ fst (value (Run Fake.ctx e w)) = e'.
Proof.
  intros e w.
  apply (Run_error_origin Fake.ctx e w (ExternalError "bad passphrase")).
  reflexivity.
Defined.

(** X7. [Run] announces exactly when it returns nil: on nil the login
    notification, carrying the username of the environment, is followed by
    the login hooks, once each; on an error there is no notification, no
    hook call and no marker write. *)
Theorem Run_announces_iff_nil {G} (m : MetaContext G) e g :
  match snd (value (Run m e g)) with
  | None =>
      filter is_announce (trace (Run m e g))
      = [EvHandleLogin (fst (Env_GetUsername m (final (run m e g))));
         EvCallLoginHooks]
  | Some _ =>
      filter is_announce (trace (Run m e g)) = []
      /\ filter is_set_provisioned (trace (Run m e g)) = []
  end.
Proof.
  destruct (run_cases m e g)
    as [(uid & g1 & evs & Hc)
       |[(uid & g1 & evs & e' & err' & Hc & Hv)|(e' & g2 & Hr)]].
  - pose proof (login_check_events m is_announce e g _ _ _ _ eq_refl
                  (fun _ => eq_refl) Hc) as Hea.
    rewrite Run_eq, (run_short m e g uid g1 evs Hc).
    unfold final at 1. simpl.
    destruct (Env_GetUsername m g1) as [u g2].
    unfold value, trace. simpl. rewrite !filter_app, Hea. reflexivity.
  - pose proof (login_check_events m is_announce e g _ _ _ _ eq_refl
                  (fun _ => eq_refl) Hc) as Hea.
    pose proof (loadMe_filter m is_announce e g1 is_announce_session) as Ha.
    rewrite Run_eq, (run_not_short m e g uid g1 evs Hc).
    unfold value, trace in *. destruct (loadMe m e g1) as [[[e1 oerr] g2] tr].
    simpl in Hv, Ha. inversion Hv; subst. unfold final at 1. simpl.
    destruct (Env_GetUsername m g2) as [u g3]. simpl.
    rewrite !filter_app, Hea, Ha. reflexivity.
  - destruct (run_login_path m e g e' g2 Hr) as (evs & tr & Hevs & Htr & Hrun).
    pose proof (delegation_filter m is_announce e' g2 (fun _ => eq_refl)
                  (fun _ _ _ => eq_refl) eq_refl (fun _ => eq_refl)
                  (fun _ _ => eq_refl)) as Hda.
    pose proof (delegation_failure_trace m e' g2) as Hdf.
    pose proof (Hevs is_announce eq_refl (fun _ => eq_refl)) as Hea.
    pose proof (Hevs is_set_provisioned eq_refl (fun _ => eq_refl)) as Hes.
    pose proof (Htr is_announce is_announce_session) as Hta.
    pose proof (Htr is_set_provisioned is_set_provisioned_session) as Hts.
    set (gd := final (delegation m e' g2)) in *.
    set (td := trace (delegation m e' g2)) in *.
    set (vd := value (delegation m e' g2)) in *.
    clearbody gd td vd.
    rewrite Run_eq, Hrun.
    destruct vd as [err|].
    + unfold value, trace. simpl. rewrite !filter_app, Hea, Hta, Hes, Hts, Hda.
      rewrite (Hdf err eq_refl). unfold login_event.
      destruct (SecretStoreOnly e'); auto.
    + unfold final. simpl. destruct (Env_GetUsername m gd) as [u g3].
      unfold value, trace. simpl. rewrite !filter_app, Hea, Hta, Hda.
      reflexivity.
Qed.

(** X8. [Run] never changes the login mode of the engine, and the only
    username it ever stores is the canonical one of a record the
    validator fetched. *)
Theorem Run_engine_frame {G} (m : MetaContext G) e g :
  SecretStoreOnly (fst (value (Run m e g))) = SecretStoreOnly e
  /\ (username (fst (value (Run m e g))) = username e
      \/ exists g1 d upak g2,
           fetches m e g1 d upak g2
           /\ username (fst (value (Run m e g)))
              = NewNormalizedUsername (Username (Current upak))).
Proof.
  assert (Hrun : fst (value (Run m e g)) = fst (value (run m e g))).
  { rewrite Run_eq. destruct (run m e g) as [[[e1 [err|]] g1] tr];
      [reflexivity|]. destruct (Env_GetUsername m g1). reflexivity. }
  rewrite Hrun.
  assert (Hload : forall g1,
            username (fst (value (loadMe m e g1))) = username e
            \/ exists d upak g2,
                 fetches m e g1 d upak g2
                 /\ username (fst (value (loadMe m e g1)))
                    = NewNormalizedUsername (Username (Current upak))).
  { intros g1. destruct (loadMe_validation m e g1)
      as [| | | | | |d upak g2 Hf Hs Hst]; unfold value; simpl; auto.
    right. exists d, upak, g2. auto. }
  destruct (login_check m e g) as [[[b uid] g1] evs] eqn:Hc.
  destruct b.
  - rewrite (run_short m e g uid g1 evs Hc). auto.
  - rewrite (run_not_short m e g uid g1 evs Hc).
    pose proof (loadMe_flag m e g1) as Hflag. specialize (Hload g1).
    unfold value in *.
    destruct (loadMe m e g1) as [[[e1 oerr] g2] tr]. simpl in *.
    assert (Hu : username e1 = username e
                 \/ exists g1 d upak g2,
                      fetches m e g1 d upak g2
                      /\ username e1
                         = NewNormalizedUsername (Username (Current upak))).
    { destruct Hload as [Hl | (d & upak & g2' & Hf & Hl)]; [auto|].
      right. exists g1, d, upak, g2'. auto. }
    destruct oerr; [auto|].
    destruct (delegation m e1 g2) as [[r g3] tr']. auto.
Qed.

(** X9. An engine that requires no UI never prompts: with
    [SecretStoreOnly] set the trace of [Run] holds no prompt login; and a
    prompt login in the trace means both the login UI and the secret UI
    were required. *)
Theorem Run_uses_required_UIs {G} (m : MetaContext G) e g :
  (RequiredUIs e = [] -> filter is_prompt_login (trace (Run m e g)) = [])
  /\ (filter is_prompt_login (trace (Run m e g)) <> [] ->
      In LoginUIKind (RequiredUIs e) /\ In SecretUIKind (RequiredUIs e)).
Proof.
  assert (Hmain : SecretStoreOnly e = true ->
                  filter is_prompt_login (trace (Run m e g)) = []).
  { intros Hflag.
    destruct (run_cases m e g)
      as [(uid & g1 & evs & Hc)
         |[(uid & g1 & evs & e' & err' & Hc & Hv)|(e' & g2 & Hr)]].
    - pose proof (login_check_events m is_prompt_login e g _ _ _ _ eq_refl
                    (fun _ => eq_refl) Hc) as He.
      rewrite Run_eq, (run_short m e g uid g1 evs Hc).
      destruct (Env_GetUsername m g1) as [u g2].
      unfold trace. simpl. rewrite !filter_app, He. reflexivity.
    - pose proof (login_check_events m is_prompt_login e g _ _ _ _ eq_refl
                    (fun _ => eq_refl) Hc) as He.
      pose proof (loadMe_filter m is_prompt_login e g1 is_prompt_session)
        as Hl.
      rewrite Run_eq, (run_not_short m e g uid g1 evs Hc).
      unfold value, trace in *.
      destruct (loadMe m e g1) as [[[e1 oerr] g2] tr].
      simpl in Hv, Hl. inversion Hv; subst.
      destruct (Env_GetUsername m g2) as [u g3]. simpl.
      rewrite !filter_app, He, Hl. reflexivity.
    - assert (Hflag' : SecretStoreOnly e' = true).
      { destruct Hr as (uid & g1 & evs & _ & Hv & _).
        pose proof (loadMe_flag m e g1) as Hf. rewrite Hv in Hf.
        simpl in Hf. congruence. }
      destruct (run_login_path m e g e' g2 Hr)
        as (evs & tr & Hevs & Htr & Hrun).
      assert (Hd : filter is_prompt_login (trace (delegation m e' g2)) = []).
      { rewrite delegation_trace. unfold login_event. rewrite Hflag'. simpl.
        destruct (exchange m e' g2) as [[err1|] g3]; [reflexivity|].
        simpl. apply filter_marker_warning. reflexivity. }
      rewrite Run_eq, Hrun.
      destruct (value (delegation m e' g2)) as [err|].
      + unfold trace at 1. simpl.
        rewrite !filter_app, Hd, (Hevs is_prompt_login),
          (Htr is_prompt_login); auto using is_prompt_session.
      + destruct (Env_GetUsername m (final (delegation m e' g2))) as [u g3].
        unfold trace at 1. simpl.
        rewrite !filter_app, Hd, (Hevs is_prompt_login),
          (Htr is_prompt_login); auto using is_prompt_session. }
  unfold RequiredUIs. split.
  - destruct (SecretStoreOnly e); [auto|discriminate].
  - destruct (SecretStoreOnly e); [|simpl; auto].
    intros Hne. exfalso. apply Hne. auto.
Qed.

Lemma Run_uses_required_UIs_witness :
  let e := {| username := "bob"; SecretStoreOnly := true |} in
  let e1 := NewLoginProvisionedDevice "bob" in
  filter is_prompt_login (trace (Run Fake.ctx e Fake.w0)) = []
  /\ In LoginUIKind (RequiredUIs e1) /\ In SecretUIKind (RequiredUIs e1).
Proof.
  intros e e1. split.
  - apply (proj1 (Run_uses_required_UIs Fake.ctx e Fake.w0)). reflexivity.
  - apply (proj2 (Run_uses_required_UIs Fake.ctx e1 Fake.w0)).
    vm_compute. discriminate.
Defined.

Section DispatcherLogin.

Context {G : Type}.
Variable m : MetaContext G.

Lemma loadMe_error_frame e g err :
  snd (value (loadMe m e g)) = Some err -> fst (value (loadMe m e g)) = e.
Proof.
  destruct (loadMe_validation m e g); unfold value; simpl;
    try reflexivity; discriminate.
Qed.

Lemma loadMe_success_fetch e g e' g2 :
  value (loadMe m e g) = (e', None) ->
  final (loadMe m e g) = g2 ->
  exists d upak,
    fetches m e g d upak g2
    /\ e' = set_username e (NewNormalizedUsername (Username (Current upak))).
Proof.
  destruct (loadMe_validation m e g)
    as [| | | | | |d upak g2' Hf Hs Hst]; unfold value, final; simpl;
    intros Hv Hg; inversion Hv; subst.
  exists d, upak. auto.
Qed.

Lemma Run_login_filter e g e' g2 :
  reaches_login m e g e' g2 ->
  filter is_login (trace (Run m e g)) = [login_event m e'].
Proof.
  intros Hr.
  destruct (run_login_path m e g e' g2 Hr) as (evs & tr & Hevs & Htr & Hrun).
  pose proof (Hevs is_login eq_refl (fun _ => eq_refl)) as Hel.
  pose proof (Htr is_login is_login_session) as Htl.
  assert (Hd : filter is_login (trace (delegation m e' g2))
               = [login_event m e']).
  { rewrite delegation_trace.
    assert (Hle : is_login (login_event m e') = true)
      by (unfold login_event; destruct (SecretStoreOnly e'); reflexivity).
    simpl. rewrite Hle.
    destruct (exchange m e' g2) as [[err1|] g3]; [reflexivity|].
    simpl. rewrite (filter_marker_warning is_login) by reflexivity.
    reflexivity. }
  set (gd := final (delegation m e' g2)) in *.
  set (td := trace (delegation m e' g2)) in *.
  set (vd := value (delegation m e' g2)) in *.
  clearbody gd td vd.
  rewrite Run_eq, Hrun.
  destruct vd as [err|].
  - unfold trace. simpl. rewrite !filter_app, Hel, Htl, Hd. reflexivity.
  - destruct (Env_GetUsername m gd) as [u g3].
    unfold trace. simpl. rewrite !filter_app, Hel, Htl, Hd. reflexivity.
Qed.

End DispatcherLogin.

(** X10. The login is attempted for the authority's name: whenever the
    delegation is reached, the validator fetched a record, and the one
    login call of [Run] carries the canonical username of that record,
    whatever name was requested. *)
Theorem Run_login_canonical {G} (m : MetaContext G) e g e' g2 :
  reaches_login m e g e' g2 ->
  exists g1 d upak,
    fetches m e g1 d upak g2
    /\ let nu := NewNormalizedUsername (Username (Current upak)) in
       username e' = nu
       /\ filter is_login (trace (Run m e g))
          = [if SecretStoreOnly e
             then EvLoginWithStoredSecret nu
             else EvLoginWithPrompt nu (LoginUI (m_UIs m))
                                    (SecretUI (m_UIs m))].
Proof.
  intros Hr. pose proof (Run_login_filter m e g e' g2 Hr) as Hl.
  destruct Hr as (uid & g1 & evs & Hc & Hv & Hg).
  destruct (loadMe_success_fetch m e g1 e' g2 Hv Hg) as (d & upak & Hf & ->).
  exists g1, d, upak. split; [exact Hf|]. simpl. split; [reflexivity|].
  rewrite Hl. reflexivity.
Qed.

(** Alice's record spells her name "Alice"; the request says "ALICE" and
    her device D7 is the one configured. *)
Lemma Run_login_canonical_witness :
  let cfg := {| Name := "alice"; Device := Some "D7" |} in
  let w := Fake.world None "bob" [cfg] [Fake.alice_remote] in
  let e := NewLoginProvisionedDevice "ALICE" in
  let e' := NewLoginProvisionedDevice "alice" in
  exists g1 d upak,
    fetches Fake.ctx e g1 d upak w
    /\ let nu := NewNormalizedUsername (Username (Current upak)) in
       username e' = nu
       /\ filter is_login (trace (Run Fake.ctx e w))
          = [if SecretStoreOnly e
             then EvLoginWithStoredSecret nu
             else EvLoginWithPrompt nu (LoginUI (m_UIs Fake.ctx))
                                    (SecretUI (m_UIs Fake.ctx))].
Proof.
  intros cfg w e e'.
  apply (Run_login_canonical Fake.ctx e w e' w).
  exists "", w, [EvIsLoggedIn]. repeat split; reflexivity.
Defined.

(** X11. When the already-logged-in test fails and the validator returns
    any error, [Run] returns nil with the engine unchanged; of the session
    side it performs exactly the login notification, for the username of
    the environment, and the hook call: no login, no marker write. *)
Theorem Run_after_failed_validation {G} (m : MetaContext G)
  e g uid g1 evs err :
  login_check m e g = (false, uid, g1, evs) ->
  snd (value (loadMe m e g1)) = Some err ->
  value (Run m e g) = (e, None)
  /\ filter is_session_event (trace (Run m e g))
     = [EvHandleLogin (fst (Env_GetUsername m (final (loadMe m e g1))));
        EvCallLoginHooks].
Proof.
  intros Hc Herr.
  pose proof (loadMe_error_frame m e g1 err Herr) as Hfr.
  pose proof (loadMe_no_session_event m e g1) as Hl.
  pose proof (login_check_events m is_session_event e g _ _ _ _ eq_refl
                (fun _ => eq_refl) Hc) as He.
  rewrite Run_eq, (run_not_short m e g uid g1 evs Hc).
  unfold value, final, trace in *.
  destruct (loadMe m e g1) as [[[e1 oerr] g2] tr]. simpl in *. subst.
  destruct (Env_GetUsername m g2) as [u g3]. simpl.
  rewrite !filter_app, He, Hl. auto.
Qed.

(** Erin's device is revoked: the validator says [errNoDevice] and deletes
    her entry, [Run] says nil and notifies for bob, the configured user. *)
Lemma Run_after_failed_validation_witness :
  let e := NewLoginProvisionedDevice "erin" in
  (value (Run Fake.ctx e Fake.w0) = (e, None)
   /\ filter is_session_event (trace (Run Fake.ctx e Fake.w0))
      = [EvHandleLogin
           (fst (Env_GetUsername Fake.ctx (final (loadMe Fake.ctx e Fake.w0))));
         EvCallLoginHooks])
  /\ value (loadMe Fake.ctx e Fake.w0) = (e, Some errNoDevice)
  /\ fst (Env_GetUsername Fake.ctx (final (loadMe Fake.ctx e Fake.w0)))
     = "bob".
Proof.
  intros e. split; [|split; reflexivity].
  apply (Run_after_failed_validation Fake.ctx e Fake.w0 "" Fake.w0
           [EvIsLoggedIn] errNoDevice); reflexivity.
Defined.


Definition is_uid_query (ev : event) : bool :=
  match ev with EvGetUsernameForUID _ => true | _ => false end.

Definition is_identity_call (ev : event) : bool :=
  is_uid_query ev || is_config_read ev.

Section DispatcherCheck.

Context {G : Type}.
Variable m : MetaContext G.

Lemma loadMe_identity_calls e g :
  filter is_identity_call (trace (loadMe m e g))
  = [if Nat.eqb (String.length (username e)) 0
     then EvGetUserConfig
     else EvGetUserConfigForUsername (username e)].
Proof.
  assert (Hc : filter is_identity_call (config_events e)
               = [if Nat.eqb (String.length (username e)) 0
                  then EvGetUserConfig
                  else EvGetUserConfigForUsername (username e)]).
  { unfold config_events.
    destruct (Nat.eqb (String.length (username e)) 0); reflexivity. }
  destruct (loadMe_validation m e g)
    as [| | | | |d upak g2 tmp g3 _ _ _ _| ]; unfold trace;
    try (destruct (stale_event_debug (Current upak) d) as (f & a & ->));
    repeat progress
      (simpl; rewrite ?filter_app, ?Hc;
       rewrite ?filter_nuke_warning by (intros; reflexivity));
    reflexivity.
Qed.

Lemma run_identity_calls_not_short e g uid g1 evs :
  login_check m e g = (false, uid, g1, evs) ->
  filter is_identity_call (trace (run m e g))
  = filter is_identity_call evs
    ++ [if Nat.eqb (String.length (username e)) 0
        then EvGetUserConfig
        else EvGetUserConfigForUsername (username e)].
Proof.
  intros Hc. rewrite (run_not_short m e g uid g1 evs Hc).
  pose proof (loadMe_identity_calls e g1) as Hl.
  pose proof (loadMe_error_frame m e g1) as Hfr.
  pose proof (loadMe_success_fetch m e g1) as Hok.
  unfold value, final, trace in *.
  destruct (loadMe m e g1) as [[[e1 oerr] g2] tr]. simpl in *.
  destruct oerr as [err|].
  - simpl. rewrite !filter_app, Hl. simpl. rewrite ?app_nil_r. reflexivity.
  - pose proof (delegation_filter m is_identity_call e1 g2 (fun _ => eq_refl)
                  (fun _ _ _ => eq_refl) eq_refl (fun _ => eq_refl)
                  (fun _ _ => eq_refl)) as Hd.
    unfold trace in Hd.
    destruct (delegation m e1 g2) as [[r g3] tr']. simpl in *.
    rewrite !filter_app, Hl, Hd. simpl. reflexivity.
Qed.

End DispatcherCheck.

(** X16. Whom [run] asks about identities.  With nobody logged in it
    never asks for the session's username and goes on to read the
    configuration.  With somebody logged in and no username requested it
    asks nothing at all.  With somebody logged in and a username
    requested it asks once for the session's username, and reads the
    configuration exactly when that username differs from the requested
    one: a session of another user does not stop the login. *)
Theorem run_identity_calls {G} (m : MetaContext G) e g :
  let in_ := fst (fst (m_isLoggedIn m g)) in
  let uid := snd (fst (m_isLoggedIn m g)) in
  let g0 := snd (m_isLoggedIn m g) in
  let asked := filter is_identity_call (trace (run m e g)) in
  (in_ = false ->
   asked = [if Nat.eqb (String.length (username e)) 0
            then EvGetUserConfig
            else EvGetUserConfigForUsername (username e)])
  /\ (in_ = true -> username e = "" -> asked = [])
  /\ (in_ = true -> username e <> "" ->
      asked = EvGetUsernameForUID uid ::
              if NormalizedUsername_Eq
                   (fst (Env_GetUsernameForUID m uid g0)) (username e)
              then []
              else [EvGetUserConfigForUsername (username e)]).
Proof.
  intros in_ uid g0 asked. subst in_ uid g0 asked.
  destruct (m_isLoggedIn m g) as [[in_ uid] g0] eqn:Hin. simpl.
  destruct in_.
  - split; [discriminate|].
    destruct (Nat.eqb (String.length (username e)) 0) eqn:Hlen.
    + assert (Hchk : login_check m e g = (true, uid, g0, [EvIsLoggedIn]))
        by (unfold login_check; rewrite Hin, Hlen; reflexivity).
      rewrite (run_short m e g _ _ _ Hchk). split; [reflexivity|].
      intros _ Hne. destruct (username e); [congruence|discriminate].
    + split; [intros _ He; rewrite He in Hlen; discriminate|].
      intros _ _.
      destruct (Env_GetUsernameForUID m uid g0) as [u g1] eqn:Hu. simpl.
      assert (Hchk : login_check m e g
                     = (NormalizedUsername_Eq u (username e), uid, g1,
                        [EvIsLoggedIn; EvGetUsernameForUID uid]))
        by (unfold login_check; rewrite Hin, Hlen, Hu; reflexivity).
      destruct (NormalizedUsername_Eq u (username e)).
      * rewrite (run_short m e g _ _ _ Hchk). reflexivity.
      * rewrite (run_identity_calls_not_short m e g _ _ _ Hchk), Hlen.
        reflexivity.
  - assert (Hchk : login_check m e g = (false, uid, g0, [EvIsLoggedIn]))
      by (unfold login_check; rewrite Hin; reflexivity).
    split; [|split; discriminate].
    intros _. rewrite (run_identity_calls_not_short m e g _ _ _ Hchk).
    reflexivity.
Qed.


(** * The device-key unlock step

    [unlockDeviceKeys] (lines 182-212) is not called by [run]: its call is
    commented out.  It talks to two further collaborators, the
    connectivity monitor and the keyrings, so it gets its own events and
    its own context record. *)

Module Unlock.

(** The monitor's answer; only equality with [ConnectivityMonitorYes] is
    tested. *)
Inductive ConnectivityMonitorResult :=
| ConnectivityMonitorYes
| ConnectivityMonitorNo
| ConnectivityMonitorUnknown.

Definition is_yes (c : ConnectivityMonitorResult) : bool :=
  match c with ConnectivityMonitorYes => true | _ => false end.

Inductive SecretKeyType :=
| DeviceSigningKeyType
| DeviceEncryptionKeyType.

Record SecretKeyArg (User : Type) := {
  Me : User;
  KeyType : SecretKeyType
}.
Arguments Me {User}.
Arguments KeyType {User}.

(** [ska.KeyType = t] *)
Definition set_KeyType {User} (ska : SecretKeyArg User) (t : SecretKeyType)
  : SecretKeyArg User :=
  {| Me := Me ska; KeyType := t |}.

(** What [m.SecretKeyPromptArg(ska, reason)] builds. *)
Record SecretKeyPromptArg (User : Type) := {
  Ska : SecretKeyArg User;
  Reason : string
}.
Arguments Ska {User}.
Arguments Reason {User}.

Inductive unlock_arg :=
| UArgError (e : error)
| UArgResult (c : ConnectivityMonitorResult)
| UArgBool (b : bool).

Inductive unlock_event (User : Type) :=
| UvDebugf (fmt : string) (args : list unlock_arg)
| UvIsConnected
| UvCheckReachability
| UvGetSecretKeyWithPrompt (arg : SecretKeyPromptArg User).
Arguments UvDebugf {User}.
Arguments UvIsConnected {User}.
Arguments UvCheckReachability {User}.
Arguments UvGetSecretKeyWithPrompt {User}.

Record KeyContext (G User Key : Type) := {
  ConnectivityMonitor_IsConnected : G -> ConnectivityMonitorResult * G;
  ConnectivityMonitor_CheckReachability : G -> option error * G;
  Keyrings_GetSecretKeyWithPrompt :
    SecretKeyPromptArg User -> G -> (option Key * option error) * G
}.
Arguments ConnectivityMonitor_IsConnected {G User Key}.
Arguments ConnectivityMonitor_CheckReachability {G User Key}.
Arguments Keyrings_GetSecretKeyWithPrompt {G User Key}.

(** The same monad as the engine's, over unlock events. *)
Definition U (User G A : Type) : Type := G -> A * G * list (unlock_event User).

Definition uret {User G A} (a : A) : U User G A := fun g => (a, g, []).

Definition ubind {User G A B} (c : U User G A) (k : A -> U User G B)
  : U User G B :=
  fun g =>
    let '(a, g1, t1) := c g in
    let '(b, g2, t2) := k a g1 in
    (b, g2, t1 ++ t2).

Definition ucall {User G A} (ev : unlock_event User) (f : G -> A * G)
  : U User G A :=
  fun g => let '(a, g1) := f g in (a, g1, [ev]).

Definition uemit {User G} (ev : unlock_event User) : U User G unit :=
  fun g => (tt, g, [ev]).

Declare Scope unlock_scope.
Notation "x <- c ;; k" := (ubind c (fun x => k))
  (at level 61, c at next level, right associativity) : unlock_scope.
Notation "' p <- c ;; k" := (ubind c (fun p => k))
  (at level 61, p pattern, c at next level, right associativity)
  : unlock_scope.
Notation "c ;; k" := (ubind c (fun _ => k))
  (at level 61, right associativity) : unlock_scope.
Local Open Scope unlock_scope.

Definition is_prompt {User} (ev : unlock_event User) : bool :=
  match ev with UvGetSecretKeyWithPrompt _ => true | _ => false end.

Definition is_reachability {User} (ev : unlock_event User) : bool :=
  match ev with UvCheckReachability => true | _ => false end.

Definition is_connected_query {User} (ev : unlock_event User) : bool :=
  match ev with UvIsConnected => true | _ => false end.

(** The prompt arguments of a trace, in order. *)
Fixpoint prompts {User} (tr : list (unlock_event User))
  : list (SecretKeyPromptArg User) :=
  match tr with
  | [] => []
  | UvGetSecretKeyWithPrompt a :: r => a :: prompts r
  | _ :: r => prompts r
  end.

Section UnlockEngine.

Context {G User Key : Type}.
Variable km : KeyContext G User Key.

Definition IsConnected : U User G ConnectivityMonitorResult :=
  ucall UvIsConnected (ConnectivityMonitor_IsConnected km).

Definition CheckReachability : U User G (option error) :=
  ucall UvCheckReachability (ConnectivityMonitor_CheckReachability km).

Definition GetSecretKeyWithPrompt (arg : SecretKeyPromptArg User)
  : U User G (option Key * option error) :=
  ucall (UvGetSecretKeyWithPrompt arg) (Keyrings_GetSecretKeyWithPrompt km arg).

Definition UDebugf (fmt : string) (args : list unlock_arg) : U User G unit :=
  uemit (UvDebugf fmt args).

Definition mkSecretKeyPromptArg (ska : SecretKeyArg User) (reason : string)
  : SecretKeyPromptArg User :=
  {| Ska := ska; Reason := reason |}.

Definition unlockDeviceKeys (e : LoginProvisionedDevice) (me : User)
  : U User G (option error) :=
  c <- IsConnected ;;
  (if negb (is_yes c) then
     UDebugf "LoginProvisionedDevice: in unlockDeviceKeys, ConnectivityMonitor says not reachable, check to make sure" [] ;;
     r <- CheckReachability ;;
     match r with
     | Some err => UDebugf "error checking reachability: %s" [UArgError err]
     | None =>
         connected <- IsConnected ;;
         UDebugf "after CheckReachability(), IsConnected() => %v (connected? %v)"
                 [UArgResult connected; UArgBool (is_yes connected)]
     end
   else uret tt) ;;
  let ska := {| Me := me; KeyType := DeviceSigningKeyType |} in
  '(_, err) <- GetSecretKeyWithPrompt
                 (mkSecretKeyPromptArg ska "unlock device keys") ;;
  match err with
  | Some err0 => uret (Some err0)
  | None =>
  let ska := set_KeyType ska DeviceEncryptionKeyType in
  '(_, err) <- GetSecretKeyWithPrompt
                 (mkSecretKeyPromptArg ska "unlock device keys") ;;
  match err with
  | Some err0 => uret (Some err0)
  | None => uret None
  end
  end.

End UnlockEngine.

Definition uvalue {User G A} (r : A * G * list (unlock_event User)) : A :=
  fst (fst r).
Definition ufinal {User G A} (r : A * G * list (unlock_event User)) : G :=
  snd (fst r).
Definition utrace {User G A} (r : A * G * list (unlock_event User))
  : list (unlock_event User) := snd r.

Definition ucount {User} (p : unlock_event User -> bool)
  (tr : list (unlock_event User)) : nat :=
  List.length (filter p tr).

Definition sign_prompt {User} (me : User) : SecretKeyPromptArg User :=
  {| Ska := {| Me := me; KeyType := DeviceSigningKeyType |};
     Reason := "unlock device keys" |}.

Definition enc_prompt {User} (me : User) : SecretKeyPromptArg User :=
  {| Ska := {| Me := me; KeyType := DeviceEncryptionKeyType |};
     Reason := "unlock device keys" |}.

Ltac unfold_unlock :=
  unfold unlockDeviceKeys, IsConnected, CheckReachability,
    GetSecretKeyWithPrompt, UDebugf, mkSecretKeyPromptArg, set_KeyType,
    ubind, ucall, uemit, uret, uvalue, ufinal, utrace, ucount.

(** An executable key context: fixed answers, and a counter of calls as
    state. *)
Definition fake_keys (conn : ConnectivityMonitorResult)
  (reach sign enc : option error) : KeyContext nat string string := {|
  ConnectivityMonitor_IsConnected := fun n => (conn, S n);
  ConnectivityMonitor_CheckReachability := fun n => (reach, S n);
  Keyrings_GetSecretKeyWithPrompt := fun arg n =>
    (match KeyType (Ska arg) with
     | DeviceSigningKeyType =>
         (match sign with None => Some "signing key" | Some _ => None end, sign)
     | DeviceEncryptionKeyType =>
         (match enc with None => Some "encryption key" | Some _ => None end,
          enc)
     end, S n)
|}.

Section UnlockSteps.

Context {G User Key : Type}.
Variable km : KeyContext G User Key.

(** The connectivity check of lines 187-195: the state it leaves and the
    events it causes. *)
Definition connectivity_check (g : G) : G * list (unlock_event User) :=
  let '(c, g0) := ConnectivityMonitor_IsConnected km g in
  if is_yes c then (g0, [UvIsConnected])
  else
    let '(r, g1) := ConnectivityMonitor_CheckReachability km g0 in
    match r with
    | Some err =>
        (g1,
         [UvIsConnected;
          UvDebugf "LoginProvisionedDevice: in unlockDeviceKeys, ConnectivityMonitor says not reachable, check to make sure" [];
          UvCheckReachability;
          UvDebugf "error checking reachability: %s" [UArgError err]])
    | None =>
        let '(c', g2) := ConnectivityMonitor_IsConnected km g1 in
        (g2,
         [UvIsConnected;
          UvDebugf "LoginProvisionedDevice: in unlockDeviceKeys, ConnectivityMonitor says not reachable, check to make sure" [];
          UvCheckReachability; UvIsConnected;
          UvDebugf "after CheckReachability(), IsConnected() => %v (connected? %v)"
                   [UArgResult c'; UArgBool (is_yes c')]])
    end.

Lemma unlockDeviceKeys_eq (e : LoginProvisionedDevice) (me : User) (g : G) :
  unlockDeviceKeys km e me g =
    let '(g1, tr) := connectivity_check g in
    let '((_, e1), g2) :=
      Keyrings_GetSecretKeyWithPrompt km (sign_prompt me) g1 in
    match e1 with
    | Some err =>
        (Some err, g2, tr ++ [UvGetSecretKeyWithPrompt (sign_prompt me)])
    | None =>
        let '((_, e2), g3) :=
          Keyrings_GetSecretKeyWithPrompt km (enc_prompt me) g2 in
        (e2, g3,
         tr ++ [UvGetSecretKeyWithPrompt (sign_prompt me);
                UvGetSecretKeyWithPrompt (enc_prompt me)])
    end.
Proof.
  unfold connectivity_check, sign_prompt, enc_prompt. unfold_unlock. simpl.
  destruct (ConnectivityMonitor_IsConnected km g) as [c g0].
  destruct (is_yes c); simpl.
  - destruct (Keyrings_GetSecretKeyWithPrompt km _ g0) as [[k1 [err1|]] g2];
      simpl; [reflexivity|].
    destruct (Keyrings_GetSecretKeyWithPrompt km _ g2) as [[k2 [err2|]] g3];
      reflexivity.
  - destruct (ConnectivityMonitor_CheckReachability km g0) as [[rerr|] g1];
      simpl.
    + destruct (Keyrings_GetSecretKeyWithPrompt km _ g1) as [[k1 [err1|]] g2];
        simpl; [reflexivity|].
      destruct (Keyrings_GetSecretKeyWithPrompt km _ g2) as [[k2 [err2|]] g3];
        reflexivity.
    + destruct (ConnectivityMonitor_IsConnected km g1) as [c' g1']. simpl.
      destruct (Keyrings_GetSecretKeyWithPrompt km _ g1') as [[k1 [err1|]] g2];
        simpl; [reflexivity|].
      destruct (Keyrings_GetSecretKeyWithPrompt km _ g2) as [[k2 [err2|]] g3];
        reflexivity.
Qed.

Lemma prompts_app (t1 t2 : list (unlock_event User)) :
  prompts (t1 ++ t2) = prompts t1 ++ prompts t2.
Proof.
  induction t1 as [|ev t1 IH]; simpl; [reflexivity|].
  destruct ev; simpl; rewrite IH; reflexivity.
Qed.

Lemma connectivity_check_prompts g :
  prompts (snd (connectivity_check g)) = [].
Proof.
  unfold connectivity_check.
  destruct (ConnectivityMonitor_IsConnected km g) as [c g0].
  destruct (is_yes c); [reflexivity|].
  destruct (ConnectivityMonitor_CheckReachability km g0) as [[rerr|] g1];
    [reflexivity|].
  destruct (ConnectivityMonitor_IsConnected km g1) as [c' g1']. reflexivity.
Qed.

End UnlockSteps.

Section UnlockProperties.

Context {G User Key : Type}.
Variable km : KeyContext G User Key.

(** X12. [unlockDeviceKeys] asks for the device signing key first and for
    the device encryption key second, both for the same user and with the
    reason "unlock device keys"; it returns nil only after both prompts,
    and never asks a third time. *)
Theorem unlock_prompt_order (e : LoginProvisionedDevice) (me : User) (g : G) :
  let r := unlockDeviceKeys km e me g in
  match uvalue r with
  | None => prompts (utrace r) = [sign_prompt me; enc_prompt me]
  | Some _ =>
      prompts (utrace r) = [sign_prompt me]
      \/ prompts (utrace r) = [sign_prompt me; enc_prompt me]
  end.
Proof.
  intros r. subst r. rewrite unlockDeviceKeys_eq.
  pose proof (connectivity_check_prompts km g) as Hp.
  destruct (connectivity_check km g) as [g1 tr]. simpl in Hp.
  destruct (Keyrings_GetSecretKeyWithPrompt km (sign_prompt me) g1)
    as [[k1 [err1|]] g2]; unfold uvalue, utrace; simpl.
  - left. rewrite prompts_app, Hp. reflexivity.
  - destruct (Keyrings_GetSecretKeyWithPrompt km (enc_prompt me) g2)
      as [[k2 [err2|]] g3]; simpl; [right|];
      rewrite prompts_app, Hp; reflexivity.
Qed.

(** X13. When the signing-key prompt fails, its error is what
    [unlockDeviceKeys] returns, even if a key came with it, and the
    encryption key is never asked for.  The prompt runs in the state the
    connectivity check leaves. *)
Theorem unlock_signing_failure (e : LoginProvisionedDevice) (me : User)
  (g : G) k err g2 :
  Keyrings_GetSecretKeyWithPrompt km (sign_prompt me)
    (fst (connectivity_check km g)) = ((k, Some err), g2) ->
  let r := unlockDeviceKeys km e me g in
  uvalue r = Some err
  /\ ufinal r = g2
  /\ prompts (utrace r) = [sign_prompt me].
Proof.
  intros Hs r. subst r. rewrite unlockDeviceKeys_eq.
  pose proof (connectivity_check_prompts km g) as Hp.
  destruct (connectivity_check km g) as [g1 tr]. simpl in Hp, Hs.
  rewrite Hs. unfold uvalue, ufinal, utrace. simpl.
  rewrite prompts_app, Hp. auto.
Qed.

(** X14. The connectivity check is advisory.  When the monitor does not
    say yes and the reachability check fails, that failure is only logged:
    the monitor is not asked again, both keys are still requested, and
    with both prompts succeeding the result is nil. *)
Theorem unlock_reachability_error_ignored (e : LoginProvisionedDevice)
  (me : User) (g : G) c g0 rerr g1 k1 g2 k2 g3 :
  ConnectivityMonitor_IsConnected km g = (c, g0) ->
  c <> ConnectivityMonitorYes ->
  ConnectivityMonitor_CheckReachability km g0 = (Some rerr, g1) ->
  Keyrings_GetSecretKeyWithPrompt km (sign_prompt me) g1 = ((k1, None), g2) ->
  Keyrings_GetSecretKeyWithPrompt km (enc_prompt me) g2 = ((k2, None), g3) ->
  let r := unlockDeviceKeys km e me g in
  uvalue r = None
  /\ ufinal r = g3
  /\ ucount is_connected_query (utrace r) = 1
  /\ ucount is_reachability (utrace r) = 1
  /\ prompts (utrace r) = [sign_prompt me; enc_prompt me].
Proof.
  intros Hc Hne Hr Hs He r. subst r. rewrite unlockDeviceKeys_eq.
  unfold connectivity_check. rewrite Hc.
  assert (Hy : is_yes c = false) by (destruct c; [congruence| |]; reflexivity).
  rewrite Hy, Hr, Hs, He. repeat split.
Qed.

(** X15. The monitor is asked at least once and at most twice, the
    reachability check runs at most once, and when the monitor says yes
    at once nothing else is asked of it. *)
Theorem unlock_monitor_budget (e : LoginProvisionedDevice) (me : User)
  (g : G) :
  let tr := utrace (unlockDeviceKeys km e me g) in
  let c := fst (ConnectivityMonitor_IsConnected km g) in
  ucount is_reachability tr = (if is_yes c then 0 else 1)
  /\ 1 <= ucount is_connected_query tr <= 2
  /\ (is_yes c = true -> ucount is_connected_query tr = 1).
Proof.
  intros tr c. subst tr c. rewrite unlockDeviceKeys_eq.
  unfold connectivity_check.
  destruct (ConnectivityMonitor_IsConnected km g) as [c g0]. simpl fst.
  destruct (is_yes c).
  - destruct (Keyrings_GetSecretKeyWithPrompt km (sign_prompt me) g0)
      as [[k1 [err1|]] g2]; [|destruct (Keyrings_GetSecretKeyWithPrompt km
                                          (enc_prompt me) g2) as [[k2 e2] g3]];
      unfold utrace, ucount; simpl; repeat split; lia.
  - destruct (ConnectivityMonitor_CheckReachability km g0) as [[rerr|] g1].
    + destruct (Keyrings_GetSecretKeyWithPrompt km (sign_prompt me) g1)
        as [[k1 [err1|]] g2]; [|destruct (Keyrings_GetSecretKeyWithPrompt km
                                            (enc_prompt me) g2) as [[k2 e2] g3]];
        unfold utrace, ucount; simpl; repeat split; try lia; discriminate.
    + destruct (ConnectivityMonitor_IsConnected km g1) as [c' g1'].
      destruct (Keyrings_GetSecretKeyWithPrompt km (sign_prompt me) g1')
        as [[k1 [err1|]] g2]; [|destruct (Keyrings_GetSecretKeyWithPrompt km
                                            (enc_prompt me) g2) as [[k2 e2] g3]];
        unfold utrace, ucount; simpl; repeat split; try lia; discriminate.
Qed.

End UnlockProperties.

(** The signing key is refused although the monitor says yes. *)
Lemma unlock_signing_failure_witness :
  let km := fake_keys ConnectivityMonitorYes None
                      (Some (ExternalError "wrong passphrase")) None in
  let r := unlockDeviceKeys km (NewLoginProvisionedDevice "bob") "bob" 0 in
  uvalue r = Some (ExternalError "wrong passphrase")
  /\ ufinal r = 2
  /\ prompts (utrace r) = [sign_prompt "bob"].
Proof.
  intros km.
  apply (unlock_signing_failure km (NewLoginProvisionedDevice "bob") "bob" 0
           None (ExternalError "wrong passphrase") 2).
  reflexivity.
Defined.

(** The monitor says no and the reachability check fails; the keys are
    unlocked all the same. *)
Lemma unlock_reachability_error_ignored_witness :
  let km := fake_keys ConnectivityMonitorNo (Some (ExternalError "offline"))
                      None None in
  let r := unlockDeviceKeys km (NewLoginProvisionedDevice "bob") "bob" 0 in
  uvalue r = None
  /\ ufinal r = 4
  /\ ucount is_connected_query (utrace r) = 1
  /\ ucount is_reachability (utrace r) = 1
  /\ prompts (utrace r) = [sign_prompt "bob"; enc_prompt "bob"].
Proof.
  intros km.
  apply (unlock_reachability_error_ignored km
           (NewLoginProvisionedDevice "bob") "bob" 0
           ConnectivityMonitorNo 1 (ExternalError "offline") 2
           (Some "signing key") 3 (Some "encryption key") 4);
    try reflexivity.
  discriminate.
Defined.

End Unlock.
